(** * mysql-mimic: the connection engine and the server accept path

    A shallow embedding of [mysql_mimic/connection.py] and
    [mysql_mimic/server.py].  The two modules are translated function by
    function.  Code that lives in other modules of the package
    ([packets], [auth], [session], [admin], [prepared], [utils], ...) is
    either taken as a parameter (record [Externals]) or, for the packet
    builders, kept symbolic: a packet is the builder call that made it. *)

From Stdlib Require Import ZArith List String Ascii Lia.
From Stdlib.Strings Require Import Byte.
From stdpp Require Import base gmap list strings.

Local Open Scope string_scope.
Local Open Scope Z_scope.
Local Open Scope list_scope.

(** ** Bytes, flags and small Python idioms *)

Abbreviation bytes := (list byte).

(** Python truthiness of [Optional[str]]: [None] and the empty string are falsy. *)
Definition str_truthy (s : option string) : bool :=
  match s with
  | Some s => negb (String.eqb s EmptyString)
  | None => false
  end.

(** [a == b] on two [Optional[str]] values. *)
Definition opt_str_eqb (a b : option string) : bool :=
  match a, b with
  | Some x, Some y => String.eqb x y
  | None, None => true
  | _, _ => false
  end.

(** [x or d] on an [Optional[str]]. *)
Definition str_or (s : option string) (d : string) : string :=
  match s with
  | Some x => if String.eqb x EmptyString then d else x
  | None => d
  end.

(** [flag in flags] for an [IntFlag]. *)
Definition flag_in (flag flags : Z) : bool := Z.land flags flag =? flag.

(** Bits of [types.Capabilities] and [types.ServerStatus].  The module is
    not part of the sources at hand and the specification names these flags
    without their values; the numbers are those of the MySQL protocol. *)
Definition CLIENT_DEPRECATE_EOF : Z := Z.shiftl 1 24.
Definition SERVER_STATUS_CURSOR_EXISTS : Z := 64.
Definition SERVER_STATUS_LAST_ROW_SENT : Z := 128.

(** Modelled from the spec: the members of [types.Commands], which is not
    part of the sources at hand, with the byte codes the specification
    lists for them. *)
Definition COM_QUIT : byte := x01.
Definition COM_QUERY : byte := x03.
Definition COM_DEBUG : byte := x0d.
Definition COM_PING : byte := x0e.
Definition COM_CHANGE_USER : byte := x11.
Definition COM_STMT_PREPARE : byte := x16.
Definition COM_STMT_EXECUTE : byte := x17.
Definition COM_STMT_SEND_LONG_DATA : byte := x18.
Definition COM_STMT_CLOSE : byte := x19.
Definition COM_STMT_RESET : byte := x1a.
Definition COM_STMT_FETCH : byte := x1c.
Definition COM_RESET_CONNECTION : byte := x1f.

Definition hex_digit (n : N) : string :=
  String (match n with
          | 0 => "0" | 1 => "1" | 2 => "2" | 3 => "3" | 4 => "4" | 5 => "5"
          | 6 => "6" | 7 => "7" | 8 => "8" | 9 => "9" | 10 => "a" | 11 => "b"
          | 12 => "c" | 13 => "d" | 14 => "e" | _ => "f"
          end%N)%char EmptyString.

(** Python's [hex] on a byte value. *)
Definition hex (b : byte) : string :=
  let n := Byte.to_N b in
  if (n <? 16)%N then "0x" +:+ hex_digit n
  else "0x" +:+ hex_digit (n / 16)%N +:+ hex_digit (n mod 16)%N.

(** [str(n)] for an [int]. *)
Definition str_of_int (n : Z) : string := pretty.pretty n.

(** ** Exceptions *)

Inductive ErrorCode :=
| HANDSHAKE_ERROR
| USER_DOES_NOT_EXIST
| ACCESS_DENIED_ERROR
| UNKNOWN_COM_ERROR
| UNKNOWN_PROCEDURE
| OTHER_CODE (n : Z).

Inductive exn :=
| ConnectionClosed
| MysqlError (msg : string) (code : ErrorCode)
| AssertionError
| IndexError
| TypeError (msg : string)
| MaxConnectionsExceeded
| OtherException (msg : string).

Definition is_ConnectionClosed (e : exn) : bool :=
  match e with ConnectionClosed => true | _ => false end.

(** ** Result sets *)

Abbreviation CharacterSet := Z.

Inductive Value := VNull | VInt (z : Z) | VStr (s : string) | VBytes (b : bytes).

Record Column := {
  col_name : string;
  col_type : Z;
  col_character_set : CharacterSet;
}.

Record ResultSet := {
  rows : list (list Value);
  columns : list Column;
}.

(** ** Packets

    The builders of [mysql_mimic.packets] are not part of the sources at
    hand.  A packet is therefore the builder applied to the arguments the
    connection passes; keyword arguments a call leaves out are [None]. *)

Record kwargs := {
  kw_eof : option bool;
  kw_affected_rows : option Z;
  kw_last_insert_id : option Z;
  kw_warnings : option Z;
  kw_flags : option Z;
}.

Definition no_kwargs : kwargs :=
  {| kw_eof := None; kw_affected_rows := None; kw_last_insert_id := None;
     kw_warnings := None; kw_flags := None |}.

Inductive ErrMsg := MsgStr (s : string) | MsgExn (e : exn).

Inductive packet :=
| make_handshake_v10 (capabilities : Z) (server_charset : CharacterSet)
    (server_version : string) (connection_id : Z) (auth_data : bytes)
    (status_flags : Z) (auth_plugin_name : string)
| make_ok (capabilities status_flags : Z) (kw : kwargs)
| make_eof (capabilities status_flags : Z) (kw : kwargs)
| make_error (capabilities : Z) (server_charset : CharacterSet)
    (msg : ErrMsg) (code : option ErrorCode)
| make_auth_switch_request (server_charset : CharacterSet)
    (plugin_name : string) (plugin_provided_data : bytes)
| make_auth_more_data (data : bytes)
| make_column_count (capabilities : Z) (column_count : nat)
| uint_len (n : nat)
| make_column_definition_41 (server_charset : CharacterSet) (name : string)
    (column_type : option Z) (character_set : option CharacterSet)
| make_binary_resultrow (row : list Value) (cols : list Column)
| make_text_resultset_row (row : list Value) (cols : list Column)
| make_com_stmt_prepare_ok (stmt_id : Z) (sql : string) (num_params : nat).

(** ** Authentication plugins ([mysql_mimic.auth], taken as data) *)

Record User := {
  user_name : string;
  user_auth_string : option string;
  user_auth_plugin : option string;
}.

Record AuthInfo := {
  ai_username : string;
  ai_data : bytes;
  ai_connect_attrs : list (string * string);
  ai_user : User;
  ai_client_plugin_name : option string;
  ai_handshake_auth_data : option bytes;
  ai_handshake_plugin_name : string;
}.

(** [auth_info.copy(data)]: the same record with fresh client data. *)
Definition AuthInfo_copy (a : AuthInfo) (data : bytes) : AuthInfo :=
  {| ai_username := ai_username a; ai_data := data;
     ai_connect_attrs := ai_connect_attrs a; ai_user := ai_user a;
     ai_client_plugin_name := ai_client_plugin_name a;
     ai_handshake_auth_data := ai_handshake_auth_data a;
     ai_handshake_plugin_name := ai_handshake_plugin_name a |}.

Inductive Decision :=
| DBytes (b : bytes)
| Success (authenticated_as : string)
| Forbidden (msg : option string).

(** A plugin's [auth] is an async generator.  It is given by the value it
    yields after having been started with [info] and having been sent the
    list [sent] so far; raising is a possible outcome. *)
Record AuthPlugin := {
  plugin_name : string;
  plugin_client_plugin_name : option string;
  plugin_auth : option AuthInfo -> list AuthInfo -> exn + Decision;
}.

Record AuthState := {
  as_plugin : AuthPlugin;
  as_info : option AuthInfo;
  as_sent : list AuthInfo;
}.

(** [await plugin.start(info)] *)
Definition AuthPlugin_start (p : AuthPlugin) (info : option AuthInfo)
  : exn + (Decision * AuthState) :=
  match plugin_auth p info [] with
  | inl e => inl e
  | inr d => inr (d, {| as_plugin := p; as_info := info; as_sent := [] |})
  end.

(** [await auth_state.asend(info)] *)
Definition AuthState_asend (s : AuthState) (info : AuthInfo)
  : exn + (Decision * AuthState) :=
  let sent := as_sent s ++ [info] in
  match plugin_auth (as_plugin s) (as_info s) sent with
  | inl e => inl e
  | inr d => inr (d, {| as_plugin := as_plugin s; as_info := as_info s;
                        as_sent := sent |})
  end.

Record IdentityProvider := {
  get_default_plugin : AuthPlugin;
  get_plugin : string -> option AuthPlugin;
  get_user : string -> option User;
}.

(** ** Prepared statements and the connection object *)

Module utils.
(** Modelled from the spec: [mysql_mimic.utils.seq] is not part of the
    sources at hand.  The specification calls it a monotonic sequence
    with wrap-around: it counts from 0 and returns to 0 on reaching
    [size]. *)
Record seq := { size : Z; value : Z }.

Definition new (size : Z) : seq := {| size := size; value := 0 |}.

(** [next(s)]: the value handed out, and the advanced sequence. *)
Definition next (s : seq) : Z * seq :=
  (value s, {| size := size s; value := (value s + 1) mod size s |}).
End utils.

Record PreparedStatement := {
  stmt_id : Z;
  sql : string;
  num_params : nat;
  param_buffers : option (gmap Z bytes);
  cursor : option (list packet);
}.

Record SystemVariables := {
  external_user : option string;
  client_charset : CharacterSet;
  server_charset : CharacterSet;
  mysql_version : string;
}.

Record Admin := {
  database : option string;
  username : option string;
}.

Record Connection := {
  connection_id : Z;
  identity_provider : IdentityProvider;
  handshake_auth_data : option bytes;
  handshake_auth_plugin : option string;
  server_capabilities : Z;
  capabilities : Z;
  status_flags : Z;
  max_packet_size : Z;
  client_plugin_name : option string;
  client_connect_attrs : list (string * string);
  zstd_compression_level : Z;
  prepared_stmt_seq : utils.seq;
  prepared_stmts : gmap Z PreparedStatement;
  vars : SystemVariables;
  admin : Admin;
}.

Definition _MAX_PREPARED_STMT_ID : Z := 2 ^ 32.

(** [Connection.__init__]; the stream and the session are kept beside the
    connection, in the [World] below.  The initial [SystemVariables()] and
    [Admin(...)] come from modules that are not at hand and are passed in. *)
Definition Connection_init (connection_id : Z)
    (identity_provider : IdentityProvider) (server_capabilities : Z)
    (vars0 : SystemVariables) (admin0 : Admin) : Connection :=
  {| connection_id := connection_id;
     identity_provider := identity_provider;
     handshake_auth_data := None;
     handshake_auth_plugin := None;
     server_capabilities := server_capabilities;
     capabilities := 0;
     status_flags := 0;
     max_packet_size := 0;
     client_plugin_name := None;
     client_connect_attrs := [];
     zstd_compression_level := 0;
     prepared_stmt_seq := utils.new _MAX_PREPARED_STMT_ID;
     prepared_stmts := ∅;
     vars := vars0;
     admin := admin0 |}.

(** Attribute assignments on the connection. *)
Definition set_handshake (d : option bytes) (p : option string)
    (c : Connection) : Connection :=
  {| connection_id := connection_id c;
     identity_provider := identity_provider c;
     handshake_auth_data := d;
     handshake_auth_plugin := p;
     server_capabilities := server_capabilities c;
     capabilities := capabilities c;
     status_flags := status_flags c;
     max_packet_size := max_packet_size c;
     client_plugin_name := client_plugin_name c;
     client_connect_attrs := client_connect_attrs c;
     zstd_compression_level := zstd_compression_level c;
     prepared_stmt_seq := prepared_stmt_seq c;
     prepared_stmts := prepared_stmts c;
     vars := vars c;
     admin := admin c |}.

Definition set_negotiated (caps max_packet : Z) (plugin : option string)
    (zstd : Z) (c : Connection) : Connection :=
  {| connection_id := connection_id c;
     identity_provider := identity_provider c;
     handshake_auth_data := handshake_auth_data c;
     handshake_auth_plugin := handshake_auth_plugin c;
     server_capabilities := server_capabilities c;
     capabilities := caps;
     status_flags := status_flags c;
     max_packet_size := max_packet;
     client_plugin_name := plugin;
     client_connect_attrs := client_connect_attrs c;
     zstd_compression_level := zstd;
     prepared_stmt_seq := prepared_stmt_seq c;
     prepared_stmts := prepared_stmts c;
     vars := vars c;
     admin := admin c |}.

Definition set_client_connect_attrs (a : list (string * string))
    (c : Connection) : Connection :=
  {| connection_id := connection_id c;
     identity_provider := identity_provider c;
     handshake_auth_data := handshake_auth_data c;
     handshake_auth_plugin := handshake_auth_plugin c;
     server_capabilities := server_capabilities c;
     capabilities := capabilities c;
     status_flags := status_flags c;
     max_packet_size := max_packet_size c;
     client_plugin_name := client_plugin_name c;
     client_connect_attrs := a;
     zstd_compression_level := zstd_compression_level c;
     prepared_stmt_seq := prepared_stmt_seq c;
     prepared_stmts := prepared_stmts c;
     vars := vars c;
     admin := admin c |}.

Definition set_stmts (s : utils.seq) (m : gmap Z PreparedStatement)
    (c : Connection) : Connection :=
  {| connection_id := connection_id c;
     identity_provider := identity_provider c;
     handshake_auth_data := handshake_auth_data c;
     handshake_auth_plugin := handshake_auth_plugin c;
     server_capabilities := server_capabilities c;
     capabilities := capabilities c;
     status_flags := status_flags c;
     max_packet_size := max_packet_size c;
     client_plugin_name := client_plugin_name c;
     client_connect_attrs := client_connect_attrs c;
     zstd_compression_level := zstd_compression_level c;
     prepared_stmt_seq := s;
     prepared_stmts := m;
     vars := vars c;
     admin := admin c |}.

Definition set_vars_admin (v : SystemVariables) (a : Admin)
    (c : Connection) : Connection :=
  {| connection_id := connection_id c;
     identity_provider := identity_provider c;
     handshake_auth_data := handshake_auth_data c;
     handshake_auth_plugin := handshake_auth_plugin c;
     server_capabilities := server_capabilities c;
     capabilities := capabilities c;
     status_flags := status_flags c;
     max_packet_size := max_packet_size c;
     client_plugin_name := client_plugin_name c;
     client_connect_attrs := client_connect_attrs c;
     zstd_compression_level := zstd_compression_level c;
     prepared_stmt_seq := prepared_stmt_seq c;
     prepared_stmts := prepared_stmts c;
     vars := v;
     admin := a |}.

Definition set_external_user (u : option string) (v : SystemVariables)
  : SystemVariables :=
  {| external_user := u; client_charset := client_charset v;
     server_charset := server_charset v; mysql_version := mysql_version v |}.

Definition set_client_charset (cs : CharacterSet) (v : SystemVariables)
  : SystemVariables :=
  {| external_user := external_user v; client_charset := cs;
     server_charset := server_charset v; mysql_version := mysql_version v |}.

Definition set_database (d : option string) (a : Admin) : Admin :=
  {| database := d; username := username a |}.

Definition set_username (u : option string) (a : Admin) : Admin :=
  {| database := database a; username := u |}.

(** Assignments to the two mutable attributes of a statement. *)
Definition set_param_buffers (b : option (gmap Z bytes))
    (s : PreparedStatement) : PreparedStatement :=
  {| stmt_id := stmt_id s; sql := sql s; num_params := num_params s;
     param_buffers := b; cursor := cursor s |}.

Definition set_cursor (k : option (list packet))
    (s : PreparedStatement) : PreparedStatement :=
  {| stmt_id := stmt_id s; sql := sql s; num_params := num_params s;
     param_buffers := param_buffers s; cursor := k |}.

(** ** Parsed client packets *)

Record HandshakeResponse41 := {
  hr_capabilities : Z;
  hr_max_packet_size : Z;
  hr_database : option string;
  hr_client_plugin : option string;
  hr_connect_attrs : list (string * string);
  hr_zstd_compression_level : Z;
  hr_username : string;
  hr_client_charset : CharacterSet;
  hr_auth_response : bytes;
}.

Record ComChangeUser := {
  cu_database : option string;
  cu_username : string;
  cu_client_charset : option CharacterSet;
  cu_connect_attrs : list (string * string);
  cu_auth_response : bytes;
  cu_client_plugin : option string;
}.

Record ComQuery := {
  cq_sql : string;
  cq_query_attrs : list (string * string);
}.

Record ComStmtSendLongData := {
  ld_stmt_id : Z;
  ld_param_id : Z;
  ld_data : bytes;
}.

(** What [parse_com_stmt_execute] computes from the statement it looked
    up; the statement itself is the fourth attribute of the result. *)
Record ComStmtExecuteBody := {
  cx_sql : string;
  cx_query_attrs : list (string * string);
  cx_use_cursor : bool;
}.

Record ComStmtFetch := {
  cf_stmt_id : Z;
  cf_num_rows : Z;
}.

(** ** Collaborators outside the two modules *)

Record Externals := {
  (* mysql_mimic.session.Session, with its own state *)
  SessionState : Type;
  session_init : Connection -> SessionState -> option exn * SessionState;
  session_query : string -> list (string * string) -> SessionState ->
                  (exn + ResultSet) * SessionState;
  session_close : SessionState -> option exn * SessionState;
  (* mysql_mimic.admin.Admin: may change the variables and the database *)
  admin_parse : string -> SystemVariables -> Admin ->
                (exn + option ResultSet) * (SystemVariables * Admin);
  admin_replace_variables : string -> SystemVariables -> Admin -> string;
  (* mysql_mimic.results.ResultSet.__bool__ *)
  result_set_bool : ResultSet -> bool;
  (* mysql_mimic.prepared.REGEX_PARAM.findall *)
  REGEX_PARAM_findall : string -> list string;
  (* mysql_mimic.charset.CharacterSet.decode *)
  charset_decode : CharacterSet -> bytes -> exn + string;
  (* mysql_mimic.packets parsers *)
  parse_handshake_response_41 : Z -> bytes -> exn + HandshakeResponse41;
  parse_com_change_user : Z -> CharacterSet -> bytes -> exn + ComChangeUser;
  parse_com_query : Z -> CharacterSet -> bytes -> exn + ComQuery;
  parse_com_stmt_send_long_data : bytes -> exn + ComStmtSendLongData;
  parse_com_stmt_execute_stmt_id : bytes -> exn + Z;
  parse_com_stmt_execute_body : Z -> CharacterSet -> bytes ->
                                PreparedStatement -> exn + ComStmtExecuteBody;
  parse_handle_stmt_fetch : bytes -> exn + ComStmtFetch;
  parse_com_stmt_reset : bytes -> exn + Z;
  parse_com_stmt_close : bytes -> exn + Z;
}.

(** ** Effects

    What a connection does to the outside is recorded as a trace. *)

Inductive event :=
| EvWrite (p : packet)            (* await self.stream.write(p) *)
| EvRead (data : bytes)           (* await self.stream.read() returned data *)
| EvResetSeq                      (* self.stream.reset_seq() *)
| EvSessionInit (username database : option string)
                                  (* await self.session.init(self), with what
                                     the session finds on the connection *)
| EvSessionQuery (sql : string)   (* await self.session.query(sql, attrs) *)
| EvSessionClose.                 (* await self.session.close() *)

Inductive result (A : Type) :=
| Ok (a : A)
| Raise (e : exn).
Arguments Ok {A} a.
Arguments Raise {A} e.

Section Connection.
Context (E : Externals).

(** The connection object, its session, the packets the client has still
    to send ([inp]) and everything done so far ([out]). *)
Record World := {
  conn : Connection;
  session : SessionState E;
  inp : list bytes;
  out : list event;
}.

Definition M (A : Type) : Type := World -> result A * World.

Definition ret {A} (a : A) : M A := fun w => (Ok a, w).

Definition bind {A B} (m : M A) (k : A -> M B) : M B :=
  fun w => match m w with
           | (Ok a, w') => k a w'
           | (Raise e, w') => (Raise e, w')
           end.

Definition raise {A} (e : exn) : M A := fun w => (Raise e, w).

Definition lift {A} (r : exn + A) : M A :=
  match r with
  | inl e => raise e
  | inr a => ret a
  end.

Notation "'let*' x := m 'in' k" := (bind m (fun x => k))
  (at level 10, x name, m at level 100, k at level 200).
Notation "'let*' ' p := m 'in' k" :=
  (bind m (fun x => match x with p => k end))
  (at level 10, p pattern, m at level 100, k at level 200).
Notation "m ;; k" := (bind m (fun _ => k))
  (at level 100, k at level 200, right associativity).

(** [try: m  except Exception as e: h e] *)
Definition try_except {A} (m : M A) (h : exn -> M A) : M A :=
  fun w => match m w with
           | (Ok a, w') => (Ok a, w')
           | (Raise e, w') => h e w'
           end.

(** [try: m  finally: f] *)
Definition try_finally {A} (m : M A) (f : M unit) : M A :=
  fun w => match m w with
           | (r, w') => match f w' with
                        | (Ok _, w'') => (r, w'')
                        | (Raise e, w'') => (Raise e, w'')
                        end
           end.

Definition get_conn : M Connection := fun w => (Ok (conn w), w).

Definition put_conn (c : Connection) : M unit :=
  fun w => (Ok tt, {| conn := c; session := session w;
                      inp := inp w; out := out w |}).

Definition emit (e : event) : M unit :=
  fun w => (Ok tt, {| conn := conn w; session := session w;
                      inp := inp w; out := out w ++ [e] |}).

Definition stream_write (p : packet) : M unit := emit (EvWrite p).

Definition stream_reset_seq : M unit := emit EvResetSeq.

(** [await self.stream.read()]: the next client packet, or
    [ConnectionClosed] once the client has nothing more to send. *)
Definition stream_read : M bytes :=
  fun w => match inp w with
           | [] => (Raise ConnectionClosed, w)
           | data :: rest =>
               (Ok data, {| conn := conn w; session := session w;
                            inp := rest; out := out w ++ [EvRead data] |})
           end.

Fixpoint write_all (ps : list packet) : M unit :=
  match ps with
  | [] => ret tt
  | p :: ps' => stream_write p ;; write_all ps'
  end.

Definition with_session {A} (f : SessionState E -> A * SessionState E)
  : M A :=
  fun w => let '(a, s) := f (session w) in
           (Ok a, {| conn := conn w; session := s;
                     inp := inp w; out := out w |}).

Definition raise_if (o : option exn) : M unit :=
  match o with
  | Some e => raise e
  | None => ret tt
  end.

Definition session_init_self : M unit :=
  let* c := get_conn in
  emit (EvSessionInit (username (admin c)) (database (admin c))) ;;
  let* o := with_session (session_init E c) in
  raise_if o.

Definition session_close_self : M unit :=
  emit EvSessionClose ;;
  let* o := with_session (session_close E) in
  raise_if o.

(** *** Packet helpers of the connection *)

Definition ok (c : Connection) (kw : kwargs) : packet :=
  make_ok (capabilities c) (status_flags c) kw.

Definition eof (c : Connection) (kw : kwargs) : packet :=
  make_eof (capabilities c) (status_flags c) kw.

Definition deprecate_eof (c : Connection) : bool :=
  flag_in CLIENT_DEPRECATE_EOF (capabilities c).

Definition ok_or_eof (c : Connection)
    (affected_rows last_insert_id warnings flags : Z) : packet :=
  if deprecate_eof c then
    ok c {| kw_eof := Some true;
            kw_affected_rows := Some affected_rows;
            kw_last_insert_id := Some last_insert_id;
            kw_warnings := Some warnings;
            kw_flags := Some flags |}
  else
    eof c {| kw_eof := None; kw_affected_rows := None;
             kw_last_insert_id := None;
             kw_warnings := Some warnings; kw_flags := Some flags |}.

Definition error (c : Connection) (msg : ErrMsg) (code : option ErrorCode)
  : packet :=
  make_error (capabilities c) (server_charset (vars c)) msg code.

Definition column_definition (c : Connection) (col : Column) : packet :=
  make_column_definition_41 (server_charset (vars c)) (col_name col)
    (Some (col_type col)) (Some (col_character_set col)).

Definition text_resultset (c : Connection) (rs : ResultSet) : list packet :=
  [make_column_count (capabilities c) (length (columns rs))]
  ++ map (column_definition c) (columns rs)
  ++ (if deprecate_eof c then [] else [eof c no_kwargs])
  ++ map (fun row => make_text_resultset_row row (columns rs)) (rows rs)
  ++ [ok_or_eof c (Z.of_nat (length (rows rs))) 0 0 0].

Definition com_stmt_prepare_response (c : Connection)
    (statement : PreparedStatement) : list packet :=
  [make_com_stmt_prepare_ok (stmt_id statement) (sql statement)
     (num_params statement)]
  ++ (if Nat.eqb (num_params statement) 0 then []
      else repeat (make_column_definition_41 (server_charset (vars c))
                     "?" None None) (num_params statement)
           ++ [eof c no_kwargs]).

(** *** The statement registry *)

Definition get_stmt (c : Connection) (id : Z) : exn + PreparedStatement :=
  match prepared_stmts c !! id with
  | Some s => inr s
  | None => inl (MysqlError ("Unknown statement: " +:+ str_of_int id)
                   UNKNOWN_PROCEDURE)
  end.

(** An attribute assignment on the statement object registered as [id]. *)
Definition update_stmt (id : Z) (f : PreparedStatement -> PreparedStatement)
  : M unit :=
  let* c := get_conn in
  put_conn (set_stmts (prepared_stmt_seq c)
              (alter f id (prepared_stmts c)) c).

(** *** Query resolution *)

Definition query (sql : string) (query_attrs : list (string * string))
  : M ResultSet :=
  let* c := get_conn in
  let '(r, (v, a)) := admin_parse E sql (vars c) (admin c) in
  put_conn (set_vars_admin v a c) ;;
  let* result_set := lift r in
  match result_set with
  | Some rs => ret rs
  | None =>
      let sql := admin_replace_variables E sql v a in
      emit (EvSessionQuery sql) ;;
      let* r := with_session (session_query E sql query_attrs) in
      lift r
  end.

(** *** Authentication *)

Inductive Verdict :=
| VSuccess (authenticated_as : string)
| VForbidden (msg : option string).

(** The loop [while not isinstance(decision, (Success, Forbidden))] of
    [authenticate].  Every round reads one client packet, so the loop is
    written by recursion on the packets still to come. *)
Fixpoint auth_rounds (pending : list bytes) (evs : list event)
    (decision : Decision) (auth_state : AuthState) (auth_info : AuthInfo)
    {struct pending}
  : result (Verdict * AuthInfo) * list bytes * list event :=
  match decision with
  | Success a => (Ok (VSuccess a, auth_info), pending, evs)
  | Forbidden m => (Ok (VForbidden m, auth_info), pending, evs)
  | DBytes d =>
      let evs := evs ++ [EvWrite (make_auth_more_data d)] in
      match pending with
      | [] => (Raise ConnectionClosed, [], evs)
      | auth_response :: pending' =>
          let evs := evs ++ [EvRead auth_response] in
          let auth_info := AuthInfo_copy auth_info auth_response in
          match AuthState_asend auth_state auth_info with
          | inl e => (Raise e, pending', evs)
          | inr (decision, auth_state) =>
              auth_rounds pending' evs decision auth_state auth_info
          end
      end
  end.

Definition auth_loop (decision : Decision) (auth_state : AuthState)
    (auth_info : AuthInfo) : M (Verdict * AuthInfo) :=
  fun w =>
    let '(r, pending, evs) :=
      auth_rounds (inp w) (out w) decision auth_state auth_info in
    (r, {| conn := conn w; session := session w;
           inp := pending; out := evs |}).

(** [p.client_plugin_name is None or p.client_plugin_name == name] *)
Definition plugin_accepts (p : AuthPlugin) (name : option string) : bool :=
  match plugin_client_plugin_name p with
  | None => true
  | Some n => opt_str_eqb (Some n) name
  end.

(** The condition of the first branch of [authenticate]. *)
Definition optimistic_match (server_plugin : option AuthPlugin)
    (user_plugin : AuthPlugin) (client_plugin_name : option string) : bool :=
  match server_plugin with
  | Some sp =>
      plugin_accepts sp client_plugin_name
      && String.eqb (plugin_name sp) (plugin_name user_plugin)
  | None => false
  end.

(** The three-way branch of [authenticate] that produces the first
    decision. *)
Definition auth_begin (c : Connection) (user_plugin : AuthPlugin)
    (auth_info : AuthInfo) (client_plugin_name : option string)
    (auth_state : option AuthState) (server_plugin : option AuthPlugin)
  : M (Decision * AuthState * AuthInfo) :=
  if optimistic_match server_plugin user_plugin client_plugin_name then
    (* Optimistic match during handshake *)
    match auth_state with
    | None => raise AssertionError
    | Some auth_state =>
        let* '(decision, auth_state) :=
          lift (AuthState_asend auth_state auth_info) in
        ret (decision, auth_state, auth_info)
    end
  else if plugin_accepts user_plugin client_plugin_name then
    (* Continue with provided client plugin *)
    let* '(decision, auth_state) :=
      lift (AuthPlugin_start user_plugin (Some auth_info)) in
    ret (decision, auth_state, auth_info)
  else
    (* Mismatch - switch authentication method *)
    let* '(decision, auth_state) :=
      lift (AuthPlugin_start user_plugin None) in
    match decision with
    | DBytes plugin_provided_data =>
        if str_truthy (plugin_client_plugin_name user_plugin) then
          stream_write
            (make_auth_switch_request (server_charset (vars c))
               (str_or (plugin_client_plugin_name user_plugin) EmptyString)
               plugin_provided_data) ;;
          let* auth_response := stream_read in
          let auth_info := AuthInfo_copy auth_info auth_response in
          let* '(decision, auth_state) :=
            lift (AuthState_asend auth_state auth_info) in
          ret (decision, auth_state, auth_info)
        else ret (decision, auth_state, auth_info)
    | _ => ret (decision, auth_state, auth_info)
    end.

(** The last statement of [authenticate]. *)
Definition auth_finish (verdict : Verdict) (auth_info : AuthInfo) : M unit :=
  match verdict with
  | VSuccess authenticated_as =>
      let* c := get_conn in
      put_conn (set_vars_admin (vars c)
                  (set_username (Some authenticated_as) (admin c)) c) ;;
      let* c := get_conn in
      stream_write (ok c no_kwargs)
  | VForbidden msg =>
      let* c := get_conn in
      stream_write
        (error c
           (MsgStr (str_or msg ("Access denied for user "
                                +:+ user_name (ai_user auth_info))))
           (Some ACCESS_DENIED_ERROR))
  end.

Definition user_plugin_of (c : Connection) (user : User) : AuthPlugin :=
  match get_plugin (identity_provider c)
          (str_or (user_auth_plugin user) EmptyString) with
  | Some p => p
  | None => get_default_plugin (identity_provider c)
  end.

Definition authenticate (username : string) (auth_response : bytes)
    (client_plugin_name : option string)
    (connect_attrs : list (string * string))
    (auth_state : option AuthState) (server_plugin : option AuthPlugin)
  : M unit :=
  let* c := get_conn in
  match get_user (identity_provider c) username with
  | None =>
      stream_write
        (error c (MsgStr ("User " +:+ username +:+ " does not exist"))
           (Some USER_DOES_NOT_EXIST))
  | Some user =>
      let user_plugin := user_plugin_of c user in
      match handshake_auth_plugin c with
      | None => raise AssertionError
      | Some handshake_plugin_name =>
          let auth_info :=
            {| ai_username := username; ai_data := auth_response;
               ai_connect_attrs := connect_attrs; ai_user := user;
               ai_client_plugin_name := client_plugin_name;
               ai_handshake_auth_data := handshake_auth_data c;
               ai_handshake_plugin_name := handshake_plugin_name |} in
          let* '(decision, auth_state, auth_info) :=
            auth_begin c user_plugin auth_info client_plugin_name
              auth_state server_plugin in
          let* '(verdict, auth_info) :=
            auth_loop decision auth_state auth_info in
          auth_finish verdict auth_info
      end
  end.

(** *** Connection phase *)

Definition connection_phase : M unit :=
  let* c := get_conn in
  let default_auth_plugin := get_default_plugin (identity_provider c) in
  let* '(auth_data, auth_state) :=
    lift (AuthPlugin_start default_auth_plugin None) in
  match auth_data with
  | DBytes auth_data =>
      put_conn (set_handshake (Some auth_data)
                  (Some (plugin_name default_auth_plugin)) c) ;;
      let* c := get_conn in
      let handshake_v10 :=
        make_handshake_v10 (server_capabilities c) (server_charset (vars c))
          (mysql_version (vars c)) (connection_id c) auth_data
          (status_flags c) (plugin_name default_auth_plugin) in
      stream_write handshake_v10 ;;
      let* data := stream_read in
      let* response :=
        lift (parse_handshake_response_41 E (server_capabilities c) data) in
      put_conn
        (set_vars_admin
           (set_client_charset (hr_client_charset response)
              (set_external_user (Some (hr_username response)) (vars c)))
           (set_database (hr_database response) (admin c))
           (set_client_connect_attrs (hr_connect_attrs response)
              (set_negotiated (hr_capabilities response)
                 (hr_max_packet_size response) (hr_client_plugin response)
                 (hr_zstd_compression_level response) c))) ;;
      authenticate (hr_username response) (hr_auth_response response)
        (hr_client_plugin response) (hr_connect_attrs response)
        (Some auth_state) (Some default_auth_plugin) ;;
      stream_reset_seq
  | _ => raise AssertionError
  end.

(** The assignments of [handle_change_user] that come before
    [self.authenticate(...)]. *)
Definition change_user_assign (com_change_user : ComChangeUser)
  (c : Connection) : Connection :=
  let v := set_external_user (Some (cu_username com_change_user)) (vars c) in
  let v := match cu_client_charset com_change_user with
           | Some cs => set_client_charset cs v
           | None => v
           end in
  let c1 := set_vars_admin v
              (set_database (cu_database com_change_user) (admin c)) c in
  match cu_connect_attrs com_change_user with
  | [] => c1
  | attrs => set_client_connect_attrs attrs c1
  end.

Definition handle_change_user (data : bytes) : M unit :=
  let* c := get_conn in
  let* com_change_user :=
    lift (parse_com_change_user E (capabilities c)
            (client_charset (vars c)) data) in
  put_conn (change_user_assign com_change_user c) ;;
  authenticate (cu_username com_change_user)
    (cu_auth_response com_change_user) (cu_client_plugin com_change_user)
    (cu_connect_attrs com_change_user) None None ;;
  session_init_self.

(** *** Command handlers *)

Definition handle_ping (data : bytes) : M unit :=
  let* c := get_conn in stream_write (ok c no_kwargs).

Definition handle_reset_connection (data : bytes) : M unit :=
  let* c := get_conn in stream_write (ok c no_kwargs).

Definition handle_debug (data : bytes) : M unit :=
  let* c := get_conn in stream_write (ok c no_kwargs).

Definition handle_query (data : bytes) : M unit :=
  let* c := get_conn in
  let* com_query :=
    lift (parse_com_query E (capabilities c) (client_charset (vars c))
            data) in
  let* result_set := query (cq_sql com_query) (cq_query_attrs com_query) in
  let* c := get_conn in
  if negb (result_set_bool E result_set) then stream_write (ok c no_kwargs)
  else write_all (text_resultset c result_set).

(** A fresh [PreparedStatement(stmt_id, sql, num_params)] has neither
    long-data buffers nor a cursor. *)
Definition handle_stmt_prepare (data : bytes) : M unit :=
  let* c := get_conn in
  let* sql := lift (charset_decode E (client_charset (vars c)) data) in
  let '(stmt_id, prepared_stmt_seq) := utils.next (prepared_stmt_seq c) in
  let num_params := length (REGEX_PARAM_findall E sql) in
  let stmt := {| stmt_id := stmt_id; sql := sql; num_params := num_params;
                 param_buffers := None; cursor := None |} in
  put_conn (set_stmts prepared_stmt_seq
              (<[stmt_id := stmt]> (prepared_stmts c)) c) ;;
  let* c := get_conn in
  write_all (com_stmt_prepare_response c stmt).

(** [setdefault] followed by [extend], on the buffers of one statement. *)
Definition extend_param_buffer (param_id : Z) (data : bytes)
    (s : PreparedStatement) : PreparedStatement :=
  let buffers := match param_buffers s with
                 | Some b => b
                 | None => ∅
                 end in
  let buffer := match buffers !! param_id with
                | Some b => b
                | None => []
                end in
  set_param_buffers (Some (<[param_id := buffer ++ data]> buffers)) s.

Definition handle_stmt_send_long_data (data : bytes) : M unit :=
  let* com_stmt_send_long_data :=
    lift (parse_com_stmt_send_long_data E data) in
  let* c := get_conn in
  let* stmt := lift (get_stmt c (ld_stmt_id com_stmt_send_long_data)) in
  update_stmt (ld_stmt_id com_stmt_send_long_data)
    (extend_param_buffer (ld_param_id com_stmt_send_long_data)
       (ld_data com_stmt_send_long_data)).

(** Modelled from the spec: [packets.parse_com_stmt_execute] is not part
    of the sources at hand.  It is handed [self.get_stmt] and, in the
    specification's words, parses "using statement's parameter count and
    current long-data buffers": it reads the statement id, looks the
    statement up and decodes the rest against that statement. *)
Definition parse_com_stmt_execute (c : Connection) (data : bytes)
  : M (Z * ComStmtExecuteBody) :=
  let* id := lift (parse_com_stmt_execute_stmt_id E data) in
  let* stmt := lift (get_stmt c id) in
  let* body :=
    lift (parse_com_stmt_execute_body E (capabilities c)
            (client_charset (vars c)) data stmt) in
  ret (id, body).

Definition handle_stmt_execute (data : bytes) : M unit :=
  let* c := get_conn in
  let* '(stmt, com_stmt_execute) := parse_com_stmt_execute c data in
  update_stmt stmt (set_param_buffers None) ;;
  let* result_set :=
    query (cx_sql com_stmt_execute) (cx_query_attrs com_stmt_execute) in
  let* c := get_conn in
  if negb (result_set_bool E result_set) then stream_write (ok c no_kwargs)
  else
    stream_write (uint_len (length (columns result_set))) ;;
    write_all (map (column_definition c) (columns result_set)) ;;
    let rows := map (fun r => make_binary_resultrow r (columns result_set))
                  (rows result_set) in
    if cx_use_cursor com_stmt_execute then
      update_stmt stmt (set_cursor (Some rows)) ;;
      stream_write (ok_or_eof c 0 0 0 SERVER_STATUS_CURSOR_EXISTS)
    else
      (if deprecate_eof c then ret tt else stream_write (eof c no_kwargs)) ;;
      write_all rows ;;
      stream_write (ok_or_eof c 0 0 0 0).

Definition handle_stmt_fetch (data : bytes) : M unit :=
  let* com_stmt_fetch := lift (parse_handle_stmt_fetch E data) in
  let* c := get_conn in
  let* stmt := lift (get_stmt c (cf_stmt_id com_stmt_fetch)) in
  match cursor stmt with
  | None => raise AssertionError
  | Some cur =>
      (* zip(range(num_rows), stmt.cursor) *)
      let fetched := take (Z.to_nat (cf_num_rows com_stmt_fetch)) cur in
      update_stmt (cf_stmt_id com_stmt_fetch)
        (set_cursor (Some (drop (Z.to_nat (cf_num_rows com_stmt_fetch))
                             cur))) ;;
      write_all fetched ;;
      let count := Z.of_nat (length fetched) in
      let done := count <? cf_num_rows com_stmt_fetch in
      stream_write
        (ok_or_eof c 0 0 0
           (if done then SERVER_STATUS_LAST_ROW_SENT
            else SERVER_STATUS_CURSOR_EXISTS))
  end.

Definition handle_stmt_reset (data : bytes) : M unit :=
  let* id := lift (parse_com_stmt_reset E data) in
  let* c := get_conn in
  let* stmt := lift (get_stmt c id) in
  update_stmt id (fun s => set_cursor None (set_param_buffers None s)) ;;
  stream_write (ok c no_kwargs).

Definition handle_stmt_close (data : bytes) : M unit :=
  let* id := lift (parse_com_stmt_close E data) in
  let* c := get_conn in
  (* self.prepared_stmts.pop(stmt_id, None) *)
  put_conn (set_stmts (prepared_stmt_seq c) (delete id (prepared_stmts c))
              c).

(** *** Command phase *)

(** The [try] block of the loop body: [true] to go on, [false] for the
    [return] of [COM_QUIT]. *)
Definition dispatch (data : bytes) : M bool :=
  match data with
  | [] => raise IndexError
  | command :: rest =>
      if Byte.eqb command COM_QUERY then handle_query rest ;; ret true
      else if Byte.eqb command COM_STMT_PREPARE then
        handle_stmt_prepare rest ;; ret true
      else if Byte.eqb command COM_STMT_SEND_LONG_DATA then
        handle_stmt_send_long_data rest ;; ret true
      else if Byte.eqb command COM_STMT_EXECUTE then
        handle_stmt_execute rest ;; ret true
      else if Byte.eqb command COM_STMT_FETCH then
        handle_stmt_fetch rest ;; ret true
      else if Byte.eqb command COM_STMT_RESET then
        handle_stmt_reset rest ;; ret true
      else if Byte.eqb command COM_STMT_CLOSE then
        handle_stmt_close rest ;; ret true
      else if Byte.eqb command COM_PING then handle_ping rest ;; ret true
      else if Byte.eqb command COM_CHANGE_USER then
        handle_change_user rest ;; ret true
      else if Byte.eqb command COM_RESET_CONNECTION then
        handle_reset_connection rest ;; ret true
      else if Byte.eqb command COM_DEBUG then handle_debug rest ;; ret true
      else if Byte.eqb command COM_QUIT then ret false
      else raise (MysqlError ("Unsupported Command: " +:+ hex command)
                    UNKNOWN_COM_ERROR)
  end.

(** The two [except] clauses of the loop body. *)
Definition on_command_error (e : exn) : M bool :=
  let* c := get_conn in
  match e with
  | MysqlError msg code =>
      stream_write (error c (MsgStr msg) (Some code)) ;; ret true
  | _ => stream_write (error c (MsgExn e) None) ;; ret true
  end.

(** One turn of [while True]: [Ok true] to loop, [Ok false] to return. *)
Definition command_iteration : M bool :=
  fun w =>
    match stream_read w with
    | (Raise e, w') =>
        if is_ConnectionClosed e then (Ok false, w') else (Raise e, w')
    | (Ok data, w') =>
        try_finally (try_except (dispatch data) on_command_error)
          stream_reset_seq w'
    end.

(** The loop, with a bound on the number of turns; [None] when the bound
    is used up. *)
Fixpoint command_phase (turns : nat) (w : World)
  : option (result unit * World) :=
  match turns with
  | O => None
  | S turns' =>
      match command_iteration w with
      | (Ok true, w') => command_phase turns' w'
      | (Ok false, w') => Some (Ok tt, w')
      | (Raise e, w') => Some (Raise e, w')
      end
  end.

(** [Connection.start]; a turn of the command loop consumes a client
    packet, so one turn more than there are packets is enough. *)
Definition start (w : World) : option (result unit * World) :=
  match try_except (connection_phase ;; session_init_self)
          (fun e =>
             let* c := get_conn in
             stream_write (error c (MsgExn e) (Some HANDSHAKE_ERROR)) ;;
             raise e) w with
  | (Raise e, w') => Some (Raise e, w')
  | (Ok _, w') =>
      match command_phase (S (length (inp w'))) w' with
      | None => None
      | Some (r, w'') =>
          match session_close_self w'' with
          | (Ok _, w3) => Some (r, w3)
          | (Raise e, w3) => Some (Raise e, w3)
          end
      end
  end.

End Connection.

Arguments conn {E} w.
Arguments session {E} w.
Arguments inp {E} w.
Arguments out {E} w.

(** ** The server's accept path ([mysql_mimic/server.py]) *)

Module server.

(** Python binds the keyword arguments of a call to the parameters of the
    callee; a keyword the callee does not declare, or a parameter without
    default that gets no argument, raises [TypeError] before the body
    runs. *)
Record Param := { name : string; has_default : bool }.

Definition declares (params : list Param) (kw : string) : bool :=
  existsb (fun p => String.eqb (name p) kw) params.

Definition supplied {A} (kwargs : list (string * A)) (p : Param) : bool :=
  existsb (fun kv => String.eqb (fst kv) (name p)) kwargs.

Definition unexpected_keyword (kw : string) : exn :=
  TypeError ("__init__() got an unexpected keyword argument '"
             +:+ kw +:+ "'").

Definition bind_keywords {A} (params : list Param)
    (kwargs : list (string * A)) : option exn :=
  match find (fun kv => negb (declares params (fst kv))) kwargs with
  | Some (kw, _) => Some (unexpected_keyword kw)
  | None =>
      match filter (fun p => negb (has_default p || supplied kwargs p))
              params with
      | [] => None
      | p :: _ =>
          Some (TypeError ("__init__() missing required argument: '"
                           +:+ name p +:+ "'"))
      end
  end.

(** The objects the server passes around. *)
Inductive Arg :=
| AStream
| ASession
| ACapabilities (c : Z)
| AInt (n : Z)
| AAuthPlugins (l : list AuthPlugin)
| AIdentityProvider (ip : IdentityProvider).

(** The parameters of [Connection.__init__] after [self]. *)
Definition Connection_init_params : list Param :=
  [ {| name := "stream"; has_default := false |};
    {| name := "connection_id"; has_default := false |};
    {| name := "session"; has_default := false |};
    {| name := "identity_provider"; has_default := false |};
    {| name := "server_capabilities"; has_default := true |} ].

Definition kwarg (kwargs : list (string * Arg)) (k : string) : option Arg :=
  snd <$> find (fun kv => String.eqb (fst kv) k) kwargs.

Record MysqlServer := {
  capabilities : Z;
  server_id : Z;
  auth_plugins : list AuthPlugin;
  _connection_seq : utils.seq;
  _connections : gmap Z Connection;
}.

Definition _CONNECTION_ID_BITS : Z := 16.
Definition _MAX_CONNECTION_SEQ : Z := 2 ^ _CONNECTION_ID_BITS.
Definition _MAX_SERVER_ID : Z := 2 ^ 16.

Definition set_seq (s : utils.seq) (srv : MysqlServer) : MysqlServer :=
  {| capabilities := capabilities srv; server_id := server_id srv;
     auth_plugins := auth_plugins srv; _connection_seq := s;
     _connections := _connections srv |}.

Definition set_connections (m : gmap Z Connection) (srv : MysqlServer)
  : MysqlServer :=
  {| capabilities := capabilities srv; server_id := server_id srv;
     auth_plugins := auth_plugins srv;
     _connection_seq := _connection_seq srv; _connections := m |}.

(** [while connection_id in self._connections: ...], at most [turns]
    times. *)
Fixpoint skip_live (turns : nat) (prefix connection_id : Z)
    (s : utils.seq) (live : gmap Z Connection) : option (Z * utils.seq) :=
  match live !! connection_id with
  | None => Some (connection_id, s)
  | Some _ =>
      match turns with
      | O => None
      | S turns' =>
          let '(v, s') := utils.next s in
          skip_live turns' prefix (prefix + v) s' live
      end
  end.

Definition _get_connection_id (srv : MysqlServer)
  : option (result Z * MysqlServer) :=
  if Z.of_nat (size (_connections srv)) >=? _MAX_CONNECTION_SEQ then
    Some (Raise MaxConnectionsExceeded, srv)
  else
    let server_id_prefix :=
      Z.shiftl (server_id srv mod _MAX_SERVER_ID) _CONNECTION_ID_BITS in
    let '(v, s) := utils.next (_connection_seq srv) in
    match skip_live (Z.to_nat _MAX_CONNECTION_SEQ) server_id_prefix
            (server_id_prefix + v) s (_connections srv) with
    | None => None
    | Some (connection_id, s') => Some (Ok connection_id, set_seq s' srv)
    end.

Section Accept.
Context (E : Externals).
  (** Values of modules that are not at hand. *)
Context (DEFAULT_SERVER_CAPABILITIES : Z).
Context (vars0 : SystemVariables) (admin0 : Admin).

  (** The call [Connection(...)] with keyword arguments only. *)
Definition Connection_call (kwargs : list (string * Arg))
    : exn + Connection :=
    match bind_keywords Connection_init_params kwargs with
    | Some e => inl e
    | None =>
        match kwarg kwargs "connection_id",
              kwarg kwargs "identity_provider" with
        | Some (AInt connection_id), Some (AIdentityProvider ip) =>
            let caps := match kwarg kwargs "server_capabilities" with
                        | Some (ACapabilities c) => c
                        | _ => DEFAULT_SERVER_CAPABILITIES
                        end in
            inr (Connection_init connection_id ip caps vars0 admin0)
        | _, _ => inl (TypeError "argument of the wrong type")
        end
    end.

  (** [MysqlServer._client_connected_cb] for a client that is going to
      send [client] and a session made by the session factory.  The
      result carries the trace of the connection, empty when
      [connection.start()] is never reached. *)
Definition _client_connected_cb (srv : MysqlServer) (client : list bytes)
      (sess : SessionState E)
    : option (result unit * MysqlServer * list event) :=
    match _get_connection_id srv with
    | None => None
    | Some (Raise e, srv) => Some (Raise e, srv, [])
    | Some (Ok connection_id, srv) =>
        match Connection_call
                [ ("stream", AStream);
                  ("session", ASession);
                  ("server_capabilities", ACapabilities (capabilities srv));
                  ("connection_id", AInt connection_id);
                  ("auth_plugins", AAuthPlugins (auth_plugins srv)) ] with
        | inl e => Some (Raise e, srv, [])
        | inr connection =>
            let srv :=
              set_connections
                (<[connection_id := connection]> (_connections srv)) srv in
            match start E {| conn := connection; session := sess;
                             inp := client; out := [] |} with
            | None => None
            | Some (r, w) =>
                Some (r,
                      set_connections
                        (delete connection_id (_connections srv)) srv,
                      out w)
            end
        end
    end.
End Accept.

End server.

(** ** A small concrete setting

    The users and plugins of [tests/test_auth.py], with stand-ins for the
    collaborators: fixed-width little-endian parsers, a session that
    answers every query with the same two rows, an admin that recognises
    nothing. *)

Module example.

Definition bytes_of_string (s : string) : bytes :=
  map byte_of_ascii (list_ascii_of_string s).

Definition string_of_bytes (b : bytes) : string :=
  string_of_list_ascii (map ascii_of_byte b).

Fixpoint uint_le (b : bytes) : Z :=
  match b with
  | [] => 0
  | x :: b' => Z.of_N (Byte.to_N x) + 256 * uint_le b'
  end.

Definition read_uint (n : nat) (b : bytes) : exn + Z :=
  if (length b <? n)%nat then inl (OtherException "unexpected end of packet")
  else inr (uint_le (take n b)).

(** [GullibleAuthPlugin]: believes the user name it is given. *)
Definition GullibleAuthPlugin : AuthPlugin :=
  {| plugin_name := "mysql_no_login";
     plugin_client_plugin_name := None;
     plugin_auth := fun info sent =>
       match info, sent with
       | None, [] => inr (DBytes [])
       | None, [i] => inr (Success (ai_username i))
       | Some i, [] => inr (Success (ai_username i))
       | _, _ => inl (OtherException "StopAsyncIteration")
       end |}.

(** [TestPlugin]: a clear-password plugin whose check is
    [username == password]. *)
Definition check_password (i : AuthInfo) : Decision :=
  if String.eqb (ai_username i) (string_of_bytes (ai_data i))
  then Success (ai_username i)
  else Forbidden None.

Definition TestPlugin : AuthPlugin :=
  {| plugin_name := "test_plugin";
     plugin_client_plugin_name := Some "mysql_clear_password";
     plugin_auth := fun info sent =>
       match info, sent with
       | None, [] => inr (DBytes [])
       | None, [i] => inr (check_password i)
       | Some i, [] => inr (check_password i)
       | _, _ => inl (OtherException "StopAsyncIteration")
       end |}.

Definition USERS : list User :=
  [ {| user_name := "levon_helm"; user_auth_string := None;
       user_auth_plugin := Some "mysql_no_login" |};
    {| user_name := "garth_hudson"; user_auth_string := Some "garth_hudson";
       user_auth_plugin := Some "test_plugin" |};
    {| user_name := "miss_moses"; user_auth_string := None;
       user_auth_plugin := None |} ].

Definition provider (plugins : list AuthPlugin) : IdentityProvider :=
  {| get_default_plugin := List.hd GullibleAuthPlugin plugins;
     get_plugin := fun n =>
       find (fun p => String.eqb (plugin_name p) n) plugins;
     get_user := fun n =>
       find (fun u => String.eqb (user_name u) n) USERS |}.

Definition two_rows : ResultSet :=
  {| rows := [[VInt 1]; [VInt 2]];
     columns := [ {| col_name := "a"; col_type := 8;
                     col_character_set := 63 |} ] |}.

Definition question_marks (s : string) : list string :=
  map (fun _ => "?")
    (filter (fun a => Ascii.eqb a "?"%char) (list_ascii_of_string s)).

(** The handshake response of the stand-in carries the user name up to a
    zero byte and the authentication data after it. *)
Fixpoint split_at_null (b : bytes) : bytes * bytes :=
  match b with
  | [] => ([], [])
  | x :: b' =>
      if Byte.eqb x x00 then ([], b')
      else let '(h, t) := split_at_null b' in (x :: h, t)
  end.

Definition E0 : Externals :=
  {| SessionState := unit;
     session_init := fun _ s => (None, s);
     session_query := fun _ _ s => (inr two_rows, s);
     session_close := fun s => (None, s);
     admin_parse := fun _ v a => (inr None, (v, a));
     admin_replace_variables := fun q _ _ => q;
     result_set_bool := fun rs =>
       match columns rs with [] => false | _ => true end;
     REGEX_PARAM_findall := question_marks;
     charset_decode := fun _ b => inr (string_of_bytes b);
     parse_handshake_response_41 := fun caps b =>
       let '(user, auth) := split_at_null b in
       inr {| hr_capabilities := caps; hr_max_packet_size := 16777216;
              hr_database := None; hr_client_plugin := None;
              hr_connect_attrs := []; hr_zstd_compression_level := 0;
              hr_username := string_of_bytes user;
              hr_client_charset := 45; hr_auth_response := auth |};
     parse_com_change_user := fun _ _ b =>
       let '(user, auth) := split_at_null b in
       inr {| cu_database := Some "db"; cu_username := string_of_bytes user;
              cu_client_charset := None; cu_connect_attrs := [];
              cu_auth_response := auth; cu_client_plugin := None |};
     parse_com_query := fun _ _ b =>
       inr {| cq_sql := string_of_bytes b; cq_query_attrs := [] |};
     parse_com_stmt_send_long_data := fun b =>
       match read_uint 4 b, read_uint 2 (drop 4 b) with
       | inr s, inr p =>
           inr {| ld_stmt_id := s; ld_param_id := p; ld_data := drop 6 b |}
       | inl e, _ | _, inl e => inl e
       end;
     parse_com_stmt_execute_stmt_id := read_uint 4;
     parse_com_stmt_execute_body := fun _ _ b stmt =>
       match read_uint 1 (drop 4 b) with
       | inr flags =>
           inr {| cx_sql := sql stmt; cx_query_attrs := [];
                  cx_use_cursor := Z.odd flags |}
       | inl e => inl e
       end;
     parse_handle_stmt_fetch := fun b =>
       match read_uint 4 b, read_uint 4 (drop 4 b) with
       | inr s, inr n => inr {| cf_stmt_id := s; cf_num_rows := n |}
       | inl e, _ | _, inl e => inl e
       end;
     parse_com_stmt_reset := read_uint 4;
     parse_com_stmt_close := read_uint 4 |}.

Definition vars0 : SystemVariables :=
  {| external_user := None; client_charset := 45; server_charset := 45;
     mysql_version := "8.0.29" |}.

Definition admin0 : Admin := {| database := None; username := None |}.

(** A connection as [Connection.__init__] leaves it. *)
Definition conn0 (plugins : list AuthPlugin) : Connection :=
  Connection_init 1 (provider plugins) 0 vars0 admin0.

Definition world0 (c : Connection) (client : list bytes) : World E0 :=
  {| conn := c; session := (tt : SessionState E0); inp := client;
     out := [] |}.


(** Client packets of the stand-in wire format. *)
Definition handshake_response (user password : string) : bytes :=
bytes_of_string user ++ [x00] ++ bytes_of_string password.

Definition ping : bytes := [COM_PING].

Definition prepare (sql : string) : bytes :=
COM_STMT_PREPARE :: bytes_of_string sql.

Definition uint32 (b : byte) : bytes := [b; x00; x00; x00].

Definition close (id : byte) : bytes := COM_STMT_CLOSE :: uint32 id.

Definition fetch (id n : byte) : bytes :=
COM_STMT_FETCH :: uint32 id ++ uint32 n.

Definition execute_with_cursor (id : byte) : bytes :=
COM_STMT_EXECUTE :: uint32 id ++ [x01].

Definition long_data_payload (id param : byte) (data : string) : bytes :=
uint32 id ++ [param; x00] ++ bytes_of_string data.

(** A new connection of a server whose only plugin is the gullible one,
    with a client that sends nothing. *)
Definition fresh : World E0 := world0 (conn0 [GullibleAuthPlugin]) [].

(** The same after [COM_STMT_PREPARE "SELECT ?"]: statement 0 exists. *)
Definition select_param : PreparedStatement :=
{| stmt_id := 0; sql := "SELECT ?"; num_params := 1;
   param_buffers := None; cursor := None |}.

Definition prepared : World E0 :=
snd (handle_stmt_prepare E0 (bytes_of_string "SELECT ?") fresh).

(** A connection on which the client has negotiated
    [CLIENT_DEPRECATE_EOF]. *)
Definition deprecating : Connection :=
set_negotiated CLIENT_DEPRECATE_EOF 0 None 0 (conn0 [GullibleAuthPlugin]).

Definition levon_helm : User :=
{| user_name := "levon_helm"; user_auth_string := None;
   user_auth_plugin := Some "mysql_no_login" |}.

Definition row (n : Z) : packet :=
make_binary_resultrow [VInt n] (columns two_rows).

(** The server as [MysqlServer()] leaves it, with server id 1. *)
Definition server0 : server.MysqlServer :=
{| server.capabilities := 0; server.server_id := 1;
   server.auth_plugins := [GullibleAuthPlugin];
   server._connection_seq := utils.new server._MAX_CONNECTION_SEQ;
   server._connections := ∅ |}.

End example.
(** ** Vocabulary of the statements below *)

(** The world after a step that left [more] to read and did [evs]. *)
Definition advance {E} (w : World E) (more : list bytes) (evs : list event)
  : World E :=
  {| conn := conn w; session := session w; inp := more;
     out := out w ++ evs |}.

(** The ERR packet for a statement id that is not registered. *)
Definition unknown_statement (c : Connection) (id : Z) : packet :=
  make_error (capabilities c) (server_charset (vars c))
    (MsgStr ("Unknown statement: " +:+ str_of_int id))
    (Some UNKNOWN_PROCEDURE).


(** The long data accumulated for one parameter of a statement. *)
Definition long_data (s : PreparedStatement) (param_id : Z) : option bytes :=
  match param_buffers s with
  | Some buffers => buffers !! param_id
  | None => None
  end.


(** The id the next [COM_STMT_PREPARE] is going to get. *)
Definition next_stmt_id (c : Connection) : Z :=
  fst (utils.next (prepared_stmt_seq c)).

(** Everything a computation adds to the trace satisfies [P]. *)
Definition emits {E A} (P : event -> Prop) (m : M E A) : Prop :=
  forall w, exists evs, out (snd (m w)) = out w ++ evs /\ Forall P evs.

(** Events other than [reset_seq()] and [session.close()]: what the
    handshake and the command handlers may do. *)
Definition handler_event (e : event) : Prop :=
  match e with
  | EvResetSeq | EvSessionClose => False
  | _ => True
  end.

(** Events other than the writing of an AuthSwitchRequest. *)
Definition not_auth_switch (e : event) : Prop :=
  match e with
  | EvWrite (make_auth_switch_request _ _ _) => False
  | _ => True
  end.

(** What [start] returns and what it did, without the final state. *)
Definition outcome {E} (r : option (result unit * World E))
  : option (result unit * list event) :=
  match r with
  | Some (r, w) => Some (r, out w)
  | None => None
  end.

(** A computation that, when it returns, has called [reset_seq()] exactly
    once, as the last thing it did, and that has not called it at all when
    it raises. *)
Definition resets_last {E} (m : M E unit) : Prop :=
  forall w,
    match m w with
    | (Ok _, w') =>
        exists evs, out w' = out w ++ evs ++ [EvResetSeq]
                    /\ Forall handler_event evs
    | (Raise _, w') =>
        exists evs, out w' = out w ++ evs /\ Forall handler_event evs
    end.

(** Two states of a connection that agree on what [COM_CHANGE_USER]
    assigns before it authenticates. *)
Definition same_settings (c c' : Connection) : Prop :=
  vars c' = vars c
  /\ database (admin c') = database (admin c)
  /\ client_connect_attrs c' = client_connect_attrs c.

(** A computation that leaves those settings alone. *)
Definition keeps_settings {E A} (m : M E A) : Prop :=
  forall w, same_settings (conn w) (conn (snd (m w))).

(** The [AuthInfo] that [authenticate] builds for a [COM_CHANGE_USER]. *)
Definition change_user_auth_info (cu : ComChangeUser) (c : Connection)
    (user : User) (handshake_plugin_name : string) : AuthInfo :=
  {| ai_username := cu_username cu; ai_data := cu_auth_response cu;
     ai_connect_attrs := cu_connect_attrs cu; ai_user := user;
     ai_client_plugin_name := cu_client_plugin cu;
     ai_handshake_auth_data := handshake_auth_data c;
     ai_handshake_plugin_name := handshake_plugin_name |}.

(** A computation that does not put packets back on the stream. *)
Definition shrinks {E A} (m : M E A) : Prop :=
  forall w, (length (inp (snd (m w))) <= length (inp w))%nat.

(** The statement id a command refers to, for the five commands that
    carry one. *)
Definition referenced_stmt_id (E : Externals) (command : byte) (rest : bytes)
  : option Z :=
  if Byte.eqb command COM_STMT_SEND_LONG_DATA then
    match parse_com_stmt_send_long_data E rest with
    | inr p => Some (ld_stmt_id p)
    | inl _ => None
    end
  else if Byte.eqb command COM_STMT_EXECUTE then
    match parse_com_stmt_execute_stmt_id E rest with
    | inr id => Some id
    | inl _ => None
    end
  else if Byte.eqb command COM_STMT_FETCH then
    match parse_handle_stmt_fetch E rest with
    | inr p => Some (cf_stmt_id p)
    | inl _ => None
    end
  else if Byte.eqb command COM_STMT_RESET then
    match parse_com_stmt_reset E rest with
    | inr id => Some id
    | inl _ => None
    end
  else if Byte.eqb command COM_STMT_CLOSE then
    match parse_com_stmt_close E rest with
    | inr id => Some id
    | inl _ => None
    end
  else None.

(** ** Further vocabulary *)

Definition is_eof (p : packet) : bool :=
  match p with
  | make_eof _ _ _ => true
  | _ => false
  end.

(** How many elements of a list pass a test. *)
Definition count {A} (test : A -> bool) (l : list A) : nat :=
  length (List.filter test l).

(** The twelve command bytes [command_phase] knows. *)
Definition known_command (command : byte) : bool :=
  existsb (Byte.eqb command)
    [COM_QUERY; COM_STMT_PREPARE; COM_STMT_SEND_LONG_DATA; COM_STMT_EXECUTE;
     COM_STMT_FETCH; COM_STMT_RESET; COM_STMT_CLOSE; COM_PING;
     COM_CHANGE_USER; COM_RESET_CONNECTION; COM_DEBUG; COM_QUIT].

Definition is_quit (data : bytes) : bool :=
  match data with
  | command :: _ => Byte.eqb command COM_QUIT
  | [] => false
  end.

(** The packets of a binary result set that is sent at once. *)
Definition binary_resultset (c : Connection) (rs : ResultSet) : list packet :=
  [uint_len (length (columns rs))]
  ++ map (fun col => make_column_definition_41 (server_charset (vars c))
                       (col_name col) (Some (col_type col))
                       (Some (col_character_set col))) (columns rs)
  ++ (if flag_in CLIENT_DEPRECATE_EOF (capabilities c) then []
      else [make_eof (capabilities c) (status_flags c) no_kwargs])
  ++ map (fun r => make_binary_resultrow r (columns rs)) (rows rs)
  ++ [if flag_in CLIENT_DEPRECATE_EOF (capabilities c) then
        make_ok (capabilities c) (status_flags c)
          {| kw_eof := Some true; kw_affected_rows := Some 0;
             kw_last_insert_id := Some 0; kw_warnings := Some 0;
             kw_flags := Some 0 |}
      else
        make_eof (capabilities c) (status_flags c)
          {| kw_eof := None; kw_affected_rows := None;
             kw_last_insert_id := None; kw_warnings := Some 0;
             kw_flags := Some 0 |}].

Definition is_session_close (e : event) : bool :=
  match e with
  | EvSessionClose => true
  | _ => false
  end.

(** A packet that asks the client for authentication data. *)
Definition is_prompt (e : event) : bool :=
  match e with
  | EvWrite (make_auth_switch_request _ _ _)
  | EvWrite (make_auth_more_data _) => true
  | _ => false
  end.

Definition is_read (e : event) : bool :=
  match e with
  | EvRead _ => true
  | _ => false
  end.

(** A computation that leaves the connection object alone. *)
Definition same_conn {E A} (m : M E A) : Prop :=
  forall w, conn (snd (m w)) = conn w.

(** The last thing [authenticate] writes when it returns: OK, or an ERR
    packet with one of its two codes. *)
Definition is_verdict (c : Connection) (p : packet) : Prop :=
  p = make_ok (capabilities c) (status_flags c) no_kwargs
  \/ exists msg,
       p = make_error (capabilities c) (server_charset (vars c)) (MsgStr msg)
             (Some USER_DOES_NOT_EXIST)
       \/ p = make_error (capabilities c) (server_charset (vars c))
                (MsgStr msg) (Some ACCESS_DENIED_ERROR).

(** A computation that reads a client packet exactly when it has just
    asked for one: when it returns, it has read as many packets as it has
    written prompts; when it raises, it may have been left without the
    answer to its last prompt.  The packets read are taken off the
    stream. *)
Definition balanced {E A} (m : M E A) : Prop :=
  forall w,
    exists evs,
      out (snd (m w)) = out w ++ evs
      /\ length (inp w) = (count is_read evs + length (inp (snd (m w))))%nat
      /\ match fst (m w) with
         | Ok _ => count is_prompt evs = count is_read evs
         | Raise _ =>
             (count is_read evs <= count is_prompt evs
              <= count is_read evs + 1)%nat
         end.

(** What the handshake fixes on a connection. *)
Definition same_negotiation (c c' : Connection) : Prop :=
  connection_id c' = connection_id c
  /\ identity_provider c' = identity_provider c
  /\ handshake_auth_data c' = handshake_auth_data c
  /\ handshake_auth_plugin c' = handshake_auth_plugin c
  /\ server_capabilities c' = server_capabilities c
  /\ capabilities c' = capabilities c
  /\ status_flags c' = status_flags c
  /\ max_packet_size c' = max_packet_size c
  /\ client_plugin_name c' = client_plugin_name c
  /\ zstd_compression_level c' = zstd_compression_level c.

(** Every registered statement is registered under its own id. *)
Definition keyed_by_id (c : Connection) : Prop :=
  forall k s, prepared_stmts c !! k = Some s -> stmt_id s = k.

(** What a command may do to a connection. *)
Definition command_frame (c c' : Connection) : Prop :=
  same_negotiation c c' /\ (keyed_by_id c -> keyed_by_id c').

(** The connection sequence as [MysqlServer.__init__] makes it and [next]
    keeps it: of size [_MAX_CONNECTION_SEQ], with its value in range. *)
Definition connection_seq_ok (srv : server.MysqlServer) : Prop :=
  utils.size (server._connection_seq srv) = server._MAX_CONNECTION_SEQ
  /\ 0 <= utils.value (server._connection_seq srv)
     < server._MAX_CONNECTION_SEQ.

Definition is_write (e : event) : bool :=
  match e with
  | EvWrite _ => true
  | _ => false
  end.

(** The packets written so far. *)
Definition writes {E} (w : World E) : nat := count is_write (out w).

(** A computation that takes no written packet back. *)
Definition grows {E A} (m : M E A) : Prop :=
  forall w, (writes w <= writes (snd (m w)))%nat.

(** A computation that has written a packet when it returns. *)
Definition answers {E A} (m : M E A) : Prop :=
  forall w,
    match fst (m w) with
    | Ok _ => (writes w < writes (snd (m w)))%nat
    | Raise _ => (writes w <= writes (snd (m w)))%nat
    end.

(** The three commands that have no response packet. *)
Definition has_no_response (data : bytes) : bool :=
  match data with
  | command :: _ =>
      existsb (Byte.eqb command)
        [COM_STMT_SEND_LONG_DATA; COM_STMT_CLOSE; COM_QUIT]
  | [] => false
  end.

(** ** Further stand-ins *)

(** A connection whose handshake packet has gone out, on a server with the
    two plugins of the tests. *)
Definition greeted : World example.E0 :=
  example.world0
    (set_handshake (Some []) (Some "mysql_no_login")
       (example.conn0 [example.GullibleAuthPlugin; example.TestPlugin])) [].

Definition garth_hudson : User :=
  {| user_name := "garth_hudson"; user_auth_string := Some "garth_hudson";
     user_auth_plugin := Some "test_plugin" |}.

(** Statement 0 after a [COM_STMT_EXECUTE] with the cursor flag. *)
Definition with_cursor : World example.E0 :=
  snd (handle_stmt_execute example.E0 (example.uint32 x00 ++ [x01])
         example.prepared).

Definition execute_at_once (id : byte) : bytes :=
  COM_STMT_EXECUTE :: example.uint32 id ++ [x00].

Definition quit : bytes := [COM_QUIT].

Definition change_user (user password : string) : bytes :=
  COM_CHANGE_USER :: example.handshake_response user password.

(** A server on which the connection with the first id is still alive. *)
Definition busy : server.MysqlServer :=
  server.set_connections
    {[ 65536 := example.conn0 [example.GullibleAuthPlugin] ]}
    example.server0.

(** * Properties *)

Section Properties.
Context (E : Externals).
Implicit Types (w : World E).

Ltac run_monad :=
  repeat (unfold bind, ret, raise, lift, get_conn, put_conn, stream_write,
                 stream_reset_seq, emit, try_except, try_finally, update_stmt;
          cbn [fst snd conn session inp out]).

(** ** Basic facts about the stream and about queries *)

Lemma write_all_out ps w :
  write_all E ps w =
  (Ok tt, {| conn := conn w; session := session w; inp := inp w;
             out := out w ++ map EvWrite ps |}).
Proof.
  revert w. induction ps as [|p ps IH]; intros w; simpl.
  - rewrite app_nil_r. by destruct w.
  - unfold bind, stream_write, emit. simpl. rewrite IH. simpl.
    by rewrite <- app_assoc.
Qed.

(** A query changes the variables and the admin state of the connection and
    nothing else of it, and it does not touch the stream. *)
Lemma query_frame sql attrs w r w' :
  query E sql attrs w = (r, w') ->
  (exists v a, conn w' = set_vars_admin v a (conn w)) /\ inp w' = inp w.
Proof.
  unfold query. run_monad.
  destruct (admin_parse E sql (vars (conn w)) (admin (conn w)))
    as [[e|[rs|]] [v a]]; run_monad.
  - intros [= <- <-]. simpl. eauto.
  - intros [= <- <-]. simpl. eauto.
  - unfold with_session. simpl.
    destruct (session_query E _ attrs (session w)) as [[e|rs] s]; simpl;
      intros [= <- <-]; simpl; eauto.
Qed.

(** ** The response to COM_STMT_PREPARE *)

(** C5.  The response to a [COM_STMT_PREPARE] whose SQL has [p > 0]
    parameter markers is COM_STMT_PREPARE_OK, [p] column definitions named
    [?] and one EOF packet; the EOF packet is there also when the client
    has negotiated [CLIENT_DEPRECATE_EOF], where the claim wants none. *)
Theorem prepare_response_ends_in_eof (c : Connection)
    (statement : PreparedStatement) :
  deprecate_eof c = true ->
  num_params statement <> 0%nat ->
  com_stmt_prepare_response c statement
  = [make_com_stmt_prepare_ok (stmt_id statement) (sql statement)
       (num_params statement)]
    ++ repeat (make_column_definition_41 (server_charset (vars c)) "?"
                 None None) (num_params statement)
    ++ [make_eof (capabilities c) (status_flags c) no_kwargs].
Proof.
  intros _ Hp. unfold com_stmt_prepare_response.
  by destruct (Nat.eqb_spec (num_params statement) 0).
Qed.

(** ** Unknown statement ids *)

(** C6 (amended).  A [COM_STMT_SEND_LONG_DATA], [COM_STMT_EXECUTE],
    [COM_STMT_FETCH] or [COM_STMT_RESET] that names a statement id which is
    not registered is answered by one ERR packet with code
    [UNKNOWN_PROCEDURE] and changes nothing; a [COM_STMT_CLOSE] that names
    such an id is ignored: nothing is written and nothing changes. *)
Theorem unknown_statement_id w command rest more id :
  inp w = (command :: rest) :: more ->
  referenced_stmt_id E command rest = Some id ->
  prepared_stmts (conn w) !! id = None ->
  command_iteration E w
  = (Ok true,
     advance w more
       ([EvRead (command :: rest)]
        ++ (if Byte.eqb command COM_STMT_CLOSE then []
            else [EvWrite (unknown_statement (conn w) id)])
        ++ [EvResetSeq])).
Proof.
  intros Hinp Href Hid. unfold referenced_stmt_id in Href.
  unfold command_iteration, stream_read. rewrite Hinp. unfold advance.
  repeat match type of Href with
         | (if Byte.eqb command ?k then _ else _) = _ =>
             destruct (Byte.eqb command k) eqn:Hk;
             [apply Byte.byte_dec_bl in Hk; subst command|clear Hk]
         end; [..|done].
  - destruct (parse_com_stmt_send_long_data E rest) as [|p] eqn:Hp; [done|].
    injection Href as <-.
    unfold dispatch. simpl. unfold handle_stmt_send_long_data.
    rewrite Hp. run_monad. unfold get_stmt. rewrite Hid. run_monad.
    unfold on_command_error. run_monad. by rewrite <- !app_assoc.
  - destruct (parse_com_stmt_execute_stmt_id E rest) as [|i] eqn:Hp; [done|].
    injection Href as ->.
    unfold dispatch. simpl. unfold handle_stmt_execute, parse_com_stmt_execute.
    rewrite Hp. run_monad. unfold get_stmt. rewrite Hid. run_monad.
    unfold on_command_error. run_monad. by rewrite <- !app_assoc.
  - destruct (parse_handle_stmt_fetch E rest) as [|p] eqn:Hp; [done|].
    injection Href as <-.
    unfold dispatch. simpl. unfold handle_stmt_fetch.
    rewrite Hp. run_monad. unfold get_stmt. rewrite Hid. run_monad.
    unfold on_command_error. run_monad. by rewrite <- !app_assoc.
  - destruct (parse_com_stmt_reset E rest) as [|i] eqn:Hp; [done|].
    injection Href as ->.
    unfold dispatch. simpl. unfold handle_stmt_reset.
    rewrite Hp. run_monad. unfold get_stmt. rewrite Hid. run_monad.
    unfold on_command_error. run_monad. by rewrite <- !app_assoc.
  - destruct (parse_com_stmt_close E rest) as [|i] eqn:Hp; [done|].
    injection Href as ->.
    unfold dispatch. simpl. unfold handle_stmt_close.
    rewrite Hp. run_monad. rewrite delete_id by done.
    rewrite <- !app_assoc. simpl. by destruct w as [[] ? ? ?].
Qed.

(** ** Cursors *)

Lemma fetch_count (n : Z) (k : nat) :
  (Z.of_nat (Nat.min (Z.to_nat n) k) <? n) = (Z.of_nat k <? n).
Proof.
  destruct (Z.ltb_spec (Z.of_nat k) n); destruct (Z.ltb_spec (Z.of_nat (Nat.min (Z.to_nat n) k)) n); lia.
Qed.

(** C4 (amended).  After a [COM_STMT_EXECUTE] with the cursor flag whose
    result set has [k] rows, a [COM_STMT_FETCH] for [n] rows writes the
    first [min n k] binary rows and then one OK-or-EOF packet; its flags are
    [LAST_ROW_SENT] when the cursor ran out before [n] rows were fetched
    ([k < n]) and [CURSOR_EXISTS] otherwise, also when [k = n]. *)
Theorem cursor_fetch w dx df id st body rs wq n :
  parse_com_stmt_execute_stmt_id E dx = inr id ->
  prepared_stmts (conn w) !! id = Some st ->
  parse_com_stmt_execute_body E (capabilities (conn w))
    (client_charset (vars (conn w))) dx st = inr body ->
  cx_use_cursor body = true ->
  query E (cx_sql body) (cx_query_attrs body)
    (snd (update_stmt E id (set_param_buffers None) w)) = (Ok rs, wq) ->
  result_set_bool E rs = true ->
  parse_handle_stmt_fetch E df = inr {| cf_stmt_id := id; cf_num_rows := n |} ->
  let k := length (rows rs) in
  let row_packets :=
    map (fun r => make_binary_resultrow r (columns rs)) (rows rs) in
  exists w1 w2,
    handle_stmt_execute E dx w = (Ok tt, w1) /\
    handle_stmt_fetch E df w1 = (Ok tt, w2) /\
    out w2 = out w1 ++ map EvWrite (take (Z.to_nat n) row_packets)
             ++ [EvWrite (ok_or_eof (conn w1) 0 0 0
                            (if Z.of_nat k <? n then SERVER_STATUS_LAST_ROW_SENT
                             else SERVER_STATUS_CURSOR_EXISTS))] /\
    length (take (Z.to_nat n) row_packets) = Nat.min (Z.to_nat n) k.
Proof.
  intros Hid Hst Hbody Hcur Hq Htrue Hf k row_packets.
  destruct (query_frame _ _ _ _ _ Hq) as ((v & a & Hc) & _).
  simpl in Hc.
  unfold handle_stmt_execute, parse_com_stmt_execute.
  run_monad. rewrite Hid. run_monad. unfold get_stmt at 1. rewrite Hst. run_monad.
  rewrite Hbody. run_monad.
  unfold update_stmt in Hq. revert Hq. run_monad. intros Hq. rewrite Hq.
  rewrite Htrue. cbn [negb]. run_monad. rewrite write_all_out. run_monad.
  rewrite Hcur. run_monad.
  eexists _, _. split; [reflexivity|].
  unfold handle_stmt_fetch. rewrite Hf. run_monad.
  unfold get_stmt. cbn [cf_stmt_id cf_num_rows].
  rewrite Hc. cbn [prepared_stmts set_stmts set_vars_admin prepared_stmt_seq].
  rewrite !lookup_alter_eq, Hst. cbn [fmap option_fmap option_map cursor set_cursor].
  run_monad. rewrite write_all_out. run_monad.
  fold row_packets.
  assert (Hlen : length (take (Z.to_nat n) row_packets) = Nat.min (Z.to_nat n) k).
  { rewrite length_take. unfold row_packets. by rewrite length_map. }
  split; [|split; [|exact Hlen]].
  - reflexivity.
  - rewrite Hlen, fetch_count. rewrite <- !app_assoc. reflexivity.
Qed.

(** ** Long data *)

Lemma long_data_extend s i d :
  long_data (extend_param_buffer i d s) i
  = Some (default [] (long_data s i) ++ d).
Proof.
  unfold long_data, extend_param_buffer. simpl.
  rewrite lookup_insert_eq.
  destruct (param_buffers s) as [m|]; simpl.
  - by destruct (m !! i).
  - by rewrite lookup_empty.
Qed.





(** ** Statement ids *)







(** ** What the handlers write *)

Section Emits.
Context (P : event -> Prop).

Lemma emits_nothing {A} (m : M E A) :
  (forall w, out (snd (m w)) = out w) -> emits P m.
Proof. intros H w. exists []. rewrite app_nil_r. by split; [apply H|]. Qed.

Lemma emits_ret {A} (a : A) : emits P (ret E a).
Proof. by apply emits_nothing. Qed.

Lemma emits_raise {A} e : emits P (raise E (A:=A) e).
Proof. by apply emits_nothing. Qed.

Lemma emits_lift {A} (r : exn + A) : emits P (lift E r).
Proof. destruct r; [apply emits_raise|apply emits_ret]. Qed.

Lemma emits_raise_if o : emits P (raise_if E o).
Proof. destruct o; [apply emits_raise|apply emits_ret]. Qed.

Lemma emits_get_conn : emits P (get_conn E).
Proof. by apply emits_nothing. Qed.

Lemma emits_put_conn c : emits P (put_conn E c).
Proof. by apply emits_nothing. Qed.

Lemma emits_with_session {A} (f : SessionState E -> A * SessionState E) :
  emits P (with_session E f).
Proof.
  apply emits_nothing. intros w. unfold with_session.
  by destruct (f (session w)).
Qed.

Lemma emits_emit e : P e -> emits P (emit E e).
Proof. intros H w. exists [e]. simpl. by split; [|apply Forall_singleton]. Qed.

Lemma emits_read : (forall d, P (EvRead d)) -> emits P (stream_read E).
Proof.
  intros H w. unfold stream_read. destruct (inp w) as [|d more]; simpl.
  - exists []. by rewrite app_nil_r.
  - exists [EvRead d]. by split; [|apply Forall_singleton].
Qed.

Lemma emits_bind {A B} (m : M E A) (k : A -> M E B) :
  emits P m -> (forall a, emits P (k a)) -> emits P (bind E m k).
Proof.
  intros Hm Hk w. unfold bind. destruct (Hm w) as (evs & Ho & HP).
  destruct (m w) as [[a|e] w1]; simpl in *.
  - destruct (Hk a w1) as (evs' & Ho' & HP'). exists (evs ++ evs').
    rewrite Ho', Ho, app_assoc. by split; [|apply Forall_app].
  - eauto.
Qed.

Lemma emits_try_except {A} (m : M E A) (h : exn -> M E A) :
  emits P m -> (forall e, emits P (h e)) -> emits P (try_except E m h).
Proof.
  intros Hm Hh w. unfold try_except. destruct (Hm w) as (evs & Ho & HP).
  destruct (m w) as [[a|e] w1]; simpl in *.
  - eauto.
  - destruct (Hh e w1) as (evs' & Ho' & HP'). exists (evs ++ evs').
    rewrite Ho', Ho, app_assoc. by split; [|apply Forall_app].
Qed.

Lemma emits_write_all ps :
  (forall p, P (EvWrite p)) -> emits P (write_all E ps).
Proof.
  intros H. induction ps as [|p ps IH]; simpl.
  - apply emits_ret.
  - apply emits_bind; [apply emits_emit, H|done].
Qed.

Lemma emits_update_stmt id f : emits P (update_stmt E id f).
Proof. by apply emits_nothing. Qed.

Lemma emits_query sql attrs :
  (forall s, P (EvSessionQuery s)) -> emits P (query E sql attrs).
Proof.
  intros H. unfold query. apply emits_bind; [apply emits_get_conn|]. intros c.
  destruct (admin_parse E sql (vars c) (admin c)) as [r [v a]].
  apply emits_bind; [apply emits_put_conn|]. intros _.
  apply emits_bind; [apply emits_lift|]. intros [rs|]; [apply emits_ret|].
  apply emits_bind; [apply emits_emit, H|]. intros _.
  apply emits_bind; [apply emits_with_session|]. intros r'. apply emits_lift.
Qed.

Lemma auth_rounds_emits pending : forall evs d st ai,
  (forall p, P (EvWrite (make_auth_more_data p))) ->
  (forall b, P (EvRead b)) ->
  exists evs', snd (auth_rounds pending evs d st ai) = evs ++ evs' /\ Forall P evs'.
Proof.
  induction pending as [|b pending IH]; intros evs d st ai Hw Hr.
  - destruct d; simpl; [|exists []; by rewrite app_nil_r..].
    eexists. split; [done|]. by apply Forall_singleton.
  - destruct d as [p| |]; simpl; [|exists []; by rewrite app_nil_r..].
    destruct (AuthState_asend st _) as [e|[d' st']].
    + simpl. rewrite <- app_assoc. eexists. split; [done|].
      repeat constructor; auto.
    + destruct (IH ((evs ++ [EvWrite (make_auth_more_data p)]) ++ [EvRead b])
                  d' st' (AuthInfo_copy ai b) Hw Hr) as (evs' & -> & HP).
      rewrite <- !app_assoc. eexists. split; [done|].
      repeat constructor; auto.
Qed.

Lemma emits_auth_loop d st ai :
  (forall p, P (EvWrite (make_auth_more_data p))) ->
  (forall b, P (EvRead b)) ->
  emits P (auth_loop E d st ai).
Proof.
  intros Hw Hr w. unfold auth_loop.
  destruct (auth_rounds_emits (inp w) (out w) d st ai Hw Hr) as (evs' & H & HP).
  destruct (auth_rounds _ _ _ _ _) as [[r pending] evs]. simpl in *. eauto.
Qed.

Lemma emits_auth_finish v ai :
  (forall caps flags kw, P (EvWrite (make_ok caps flags kw))) ->
  (forall caps cs msg code, P (EvWrite (make_error caps cs msg code))) ->
  emits P (auth_finish E v ai).
Proof.
  intros Hok Herr. destruct v; simpl.
  - apply emits_bind; [apply emits_get_conn|]. intros c.
    apply emits_bind; [apply emits_put_conn|]. intros _.
    apply emits_bind; [apply emits_get_conn|]. intros c'.
    apply emits_emit, Hok.
  - apply emits_bind; [apply emits_get_conn|]. intros c.
    apply emits_emit, Herr.
Qed.

End Emits.
Ltac emits_step :=
  lazymatch goal with
  | |- emits _ (bind _ _ _) => apply emits_bind; [|intros ?]
  | |- emits _ (ret _ _) => apply emits_ret
  | |- emits _ (raise _ _) => apply emits_raise
  | |- emits _ (lift _ _) => apply emits_lift
  | |- emits _ (raise_if _ _) => apply emits_raise_if
  | |- emits _ (get_conn _) => apply emits_get_conn
  | |- emits _ (put_conn _ _) => apply emits_put_conn
  | |- emits _ (update_stmt _ _ _) => apply emits_update_stmt
  | |- emits _ (with_session _ _) => apply emits_with_session
  | |- emits _ (stream_write _ _) => apply emits_emit; exact I
  | |- emits _ (emit _ _) => apply emits_emit; exact I
  | |- emits _ (stream_read _) => apply emits_read; intros; exact I
  | |- emits _ (write_all _ _) => apply emits_write_all; intros; exact I
  | |- emits _ (query _ _ _) => apply emits_query; intros; exact I
  | |- emits _ (auth_loop _ _ _ _) => apply emits_auth_loop; intros; exact I
  | |- emits _ (auth_finish _ _ _) => apply emits_auth_finish; intros; exact I
  | |- emits _ (match ?x with _ => _ end) => destruct x
  end.

Ltac emits_auto := repeat emits_step.

Lemma emits_auth_begin c up ai cpn st sp :
  emits handler_event (auth_begin E c up ai cpn st sp).
Proof. unfold auth_begin. emits_auto. Qed.

Lemma emits_authenticate u r cpn attrs st sp :
  emits handler_event (authenticate E u r cpn attrs st sp).
Proof.
  unfold authenticate. emits_auto. apply emits_auth_begin.
Qed.

Lemma emits_session_init : emits handler_event (session_init_self E).
Proof. unfold session_init_self. emits_auto. Qed.

Lemma emits_dispatch data : emits handler_event (dispatch E data).
Proof.
  unfold dispatch, handle_query, handle_stmt_prepare,
    handle_stmt_send_long_data, handle_stmt_execute, parse_com_stmt_execute,
    handle_stmt_fetch, handle_stmt_reset, handle_stmt_close, handle_ping,
    handle_change_user, handle_reset_connection, handle_debug.
  emits_auto; first [apply emits_authenticate | apply emits_session_init].
Qed.

Lemma emits_on_command_error e : emits handler_event (on_command_error E e).
Proof. unfold on_command_error. emits_auto. Qed.

Lemma on_command_error_returns e w :
  exists w', on_command_error E e w = (Ok true, w').
Proof. unfold on_command_error. destruct e; run_monad; eauto. Qed.

Lemma resets_last_bind {A} (m : M E A) (k : A -> M E unit) :
  emits handler_event m -> (forall a, resets_last (k a)) ->
  resets_last (bind E m k).
Proof.
  intros Hm Hk w. unfold bind. destruct (Hm w) as (evs & Ho & HP).
  destruct (m w) as [[a|e] w1]; simpl in *; [|eauto].
  specialize (Hk a w1). destruct (k a w1) as [[[]|e] w2];
    destruct Hk as (evs' & Ho' & HP'); exists (evs ++ evs');
    rewrite Ho', Ho, <- ?app_assoc; (split; [done|by apply Forall_app]).
Qed.

Lemma resets_last_raise e : resets_last (raise E e).
Proof. intros w. exists []. by rewrite app_nil_r. Qed.

Lemma resets_last_reset : resets_last (stream_reset_seq E).
Proof. intros w. exists []. done. Qed.

Lemma connection_phase_resets_last : resets_last (connection_phase E).
Proof.
  unfold connection_phase.
  apply resets_last_bind; [emits_auto|]. intros c.
  apply resets_last_bind; [emits_auto|]. intros [[] st];
    [|apply resets_last_raise..].
  do 6 (apply resets_last_bind; [emits_auto|]; intros ?).
  apply resets_last_bind; [apply emits_authenticate|]. intros _.
  apply resets_last_reset.
Qed.





(** ** COM_CHANGE_USER *)

Lemma same_settings_refl c : same_settings c c.
Proof. by repeat split. Qed.

Lemma same_settings_trans c1 c2 c3 :
  same_settings c1 c2 -> same_settings c2 c3 -> same_settings c1 c3.
Proof.
  intros (H1 & H2 & H3) (H1' & H2' & H3'). repeat split; congruence.
Qed.

Lemma keeps_same_conn {A} (m : M E A) :
  (forall w, conn (snd (m w)) = conn w) -> keeps_settings m.
Proof. intros H w. rewrite H. apply same_settings_refl. Qed.

Lemma keeps_bind {A B} (m : M E A) (k : A -> M E B) :
  keeps_settings m -> (forall a, keeps_settings (k a)) ->
  keeps_settings (bind E m k).
Proof.
  intros Hm Hk w. unfold bind. specialize (Hm w).
  destruct (m w) as [[a|e] w1]; simpl in *; [|done].
  eapply same_settings_trans; [exact Hm|apply Hk].
Qed.

Lemma keeps_lift {A} (r : exn + A) : keeps_settings (lift E r).
Proof. apply keeps_same_conn. by destruct r. Qed.

Lemma keeps_auth_loop d st ai : keeps_settings (auth_loop E d st ai).
Proof.
  apply keeps_same_conn. intros w. unfold auth_loop.
  by destruct (auth_rounds _ _ _ _ _) as [[r pending] evs].
Qed.

Lemma keeps_read : keeps_settings (stream_read E).
Proof.
  apply keeps_same_conn. intros w. unfold stream_read. by destruct (inp w).
Qed.

Ltac keeps_step :=
  lazymatch goal with
  | |- keeps_settings (bind _ _ _) => apply keeps_bind; [|intros ?]
  | |- keeps_settings (lift _ _) => apply keeps_lift
  | |- keeps_settings (auth_loop _ _ _ _) => apply keeps_auth_loop
  | |- keeps_settings (stream_read _) => apply keeps_read
  | |- keeps_settings (match ?x with _ => _ end) => destruct x
  | |- keeps_settings _ => by apply keeps_same_conn
  end.

Lemma keeps_auth_finish v ai : keeps_settings (auth_finish E v ai).
Proof.
  destruct v; intros w; simpl; run_monad; [|apply same_settings_refl].
  by repeat split.
Qed.

Lemma keeps_auth_begin c up ai cpn st sp :
  keeps_settings (auth_begin E c up ai cpn st sp).
Proof. unfold auth_begin. repeat keeps_step. Qed.

Lemma keeps_authenticate u r cpn attrs st sp :
  keeps_settings (authenticate E u r cpn attrs st sp).
Proof.
  unfold authenticate.
  apply keeps_bind; [by apply keeps_same_conn|]. intros c.
  destruct (get_user _ _); [|by apply keeps_same_conn].
  destruct (handshake_auth_plugin c); [|by apply keeps_same_conn].
  apply keeps_bind; [apply keeps_auth_begin|]. intros [[d st'] ai].
  apply keeps_bind; [apply keeps_auth_loop|]. intros [v ai'].
  apply keeps_auth_finish.
Qed.

Lemma keeps_session_init : keeps_settings (session_init_self E).
Proof.
  apply keeps_same_conn. intros w. unfold session_init_self. run_monad.
  unfold with_session. simpl. destruct (session_init E _ _) as [[e|] s]; done.
Qed.

Lemma session_init_trace w :
  out (snd (session_init_self E w))
  = out w ++ [EvSessionInit (username (admin (conn w)))
                (database (admin (conn w)))].
Proof.
  unfold session_init_self. run_monad.
  unfold with_session. simpl. destruct (session_init E _ _) as [[e|] s]; done.
Qed.

Lemma auth_rounds_forbidden pending evs msg st ai :
  auth_rounds pending evs (Forbidden msg) st ai
  = (Ok (VForbidden msg, ai), pending, evs).
Proof. by destruct pending. Qed.

Lemma change_user_assign_spec cu c :
  database (admin (change_user_assign cu c)) = cu_database cu
  /\ external_user (vars (change_user_assign cu c)) = Some (cu_username cu)
  /\ client_charset (vars (change_user_assign cu c))
     = default (client_charset (vars c)) (cu_client_charset cu)
  /\ client_connect_attrs (change_user_assign cu c)
     = (if cu_connect_attrs cu is [] then client_connect_attrs c
        else cu_connect_attrs cu)
  /\ username (admin (change_user_assign cu c)) = username (admin c)
  /\ identity_provider (change_user_assign cu c) = identity_provider c
  /\ handshake_auth_plugin (change_user_assign cu c) = handshake_auth_plugin c
  /\ handshake_auth_data (change_user_assign cu c) = handshake_auth_data c.
Proof.
  unfold change_user_assign.
  destruct (cu_connect_attrs cu), (cu_client_charset cu); done.
Qed.

(** C10.  [COM_CHANGE_USER] installs the new database, external user and
    (when supplied) client charset and connect attributes before it
    authenticates; they are still in place when the command is over,
    whatever its outcome.  Whenever [authenticate] returns, [session.init]
    is called next, and [authenticate] returns after writing the ERR
    packet both for an unknown user and for a plugin that says
    [Forbidden]. *)
Theorem change_user_not_atomic w data cu :
  parse_com_change_user E (capabilities (conn w))
    (client_charset (vars (conn w))) data = inr cu ->
  let c1 := change_user_assign cu (conn w) in
  let w1 := {| conn := c1; session := session w; inp := inp w;
               out := out w |} in
  (database (admin c1) = cu_database cu
   /\ external_user (vars c1) = Some (cu_username cu)
   /\ client_charset (vars c1)
      = default (client_charset (vars (conn w))) (cu_client_charset cu)
   /\ client_connect_attrs c1
      = (if cu_connect_attrs cu is [] then client_connect_attrs (conn w)
         else cu_connect_attrs cu))
  /\ same_settings c1 (conn (snd (handle_change_user E data w)))
  /\ (forall r2 w2,
        authenticate E (cu_username cu) (cu_auth_response cu)
          (cu_client_plugin cu) (cu_connect_attrs cu) None None w1 = (r2, w2) ->
        handle_change_user E data w
        = match r2 with
          | Ok _ => session_init_self E w2
          | Raise e => (Raise e, w2)
          end)
  /\ (get_user (identity_provider (conn w)) (cu_username cu) = None ->
      out (snd (handle_change_user E data w))
      = out w
        ++ [EvWrite (error c1
                       (MsgStr ("User " +:+ cu_username cu
                                +:+ " does not exist"))
                       (Some USER_DOES_NOT_EXIST));
            EvSessionInit (username (admin (conn w))) (cu_database cu)])
  /\ (forall user hp msg st,
        get_user (identity_provider (conn w)) (cu_username cu) = Some user ->
        handshake_auth_plugin (conn w) = Some hp ->
        plugin_accepts (user_plugin_of c1 user) (cu_client_plugin cu) = true ->
        AuthPlugin_start (user_plugin_of c1 user)
          (Some (change_user_auth_info cu c1 user hp))
        = inr (Forbidden msg, st) ->
        out (snd (handle_change_user E data w))
        = out w
          ++ [EvWrite (error c1
                         (MsgStr (str_or msg ("Access denied for user "
                                              +:+ user_name user)))
                         (Some ACCESS_DENIED_ERROR));
              EvSessionInit (username (admin (conn w))) (cu_database cu)]).
Proof.
  intros Hp c1 w1.
  pose proof (change_user_assign_spec cu (conn w)) as Hspec.
  fold c1 in Hspec.
  destruct Hspec as (Hdb & Hext & Hcs & Hattrs & Husr & Hip & Hhp & Hhd).
  assert (Hunfold : handle_change_user E data w
          = bind E (authenticate E (cu_username cu) (cu_auth_response cu)
                      (cu_client_plugin cu) (cu_connect_attrs cu) None None)
              (fun _ => session_init_self E) w1).
  { unfold handle_change_user. unfold bind at 1, get_conn. cbn [fst snd].
    rewrite Hp. unfold bind at 1, lift, ret. cbn [fst snd].
    unfold bind at 1, put_conn. reflexivity. }
  split; [done|]. split; [|split; [|split]].
  - rewrite Hunfold.
    apply (keeps_bind _ _ (keeps_authenticate _ _ _ _ _ _)
             (fun _ => keeps_session_init) w1).
  - intros r2 w2 Ha. rewrite Hunfold. unfold bind. rewrite Ha. by destruct r2.
  - intros Hnone. rewrite Hunfold. subst w1. unfold bind at 1.
    unfold authenticate. unfold bind at 1, get_conn. cbn [fst snd conn].
    rewrite Hip, Hnone. run_monad.
    rewrite session_init_trace. cbn [conn out]. rewrite Husr, Hdb.
    by rewrite <- app_assoc.
  - intros user hp msg st Huser Hhs Hacc Hstart. rewrite Hunfold. subst w1.
    unfold bind at 1.
    unfold authenticate. unfold bind at 1, get_conn. cbn [fst snd conn].
    rewrite Hip, Huser, Hhp, Hhs.
    unfold auth_begin, optimistic_match. rewrite Hacc.
    unfold change_user_auth_info in Hstart.
    unfold bind at 1. unfold bind at 1. rewrite Hstart. run_monad.
    unfold auth_loop. rewrite auth_rounds_forbidden. simpl. run_monad.
    rewrite session_init_trace. cbn [conn out]. rewrite Husr, Hdb.
    by rewrite <- app_assoc.
Qed.

(** ** Handshakes that fail in [authenticate] *)

(** When the identity provider does not know the user of the handshake
    response, the connection phase writes the ERR packet and returns
    normally, so that [start] carries on with [session.init] and the
    command phase. *)
Lemma connection_phase_unknown_user w data more auth_data st response :
  inp w = data :: more ->
  AuthPlugin_start (get_default_plugin (identity_provider (conn w))) None
  = inr (DBytes auth_data, st) ->
  parse_handshake_response_41 E (server_capabilities (conn w)) data
  = inr response ->
  get_user (identity_provider (conn w)) (hr_username response) = None ->
  exists w1,
    connection_phase E w = (Ok tt, w1)
    /\ inp w1 = more
    /\ out w1
       = out w
         ++ [EvWrite (make_handshake_v10 (server_capabilities (conn w))
                        (server_charset (vars (conn w)))
                        (mysql_version (vars (conn w)))
                        (connection_id (conn w)) auth_data
                        (status_flags (conn w))
                        (plugin_name (get_default_plugin
                                        (identity_provider (conn w)))));
             EvRead data;
             EvWrite (error (conn w1)
                        (MsgStr ("User " +:+ hr_username response
                                 +:+ " does not exist"))
                        (Some USER_DOES_NOT_EXIST));
             EvResetSeq].
Proof.
  intros Hinp Hstart Hparse Huser.
  unfold connection_phase. run_monad. rewrite Hstart. run_monad.
  unfold stream_read. cbn [inp]. rewrite Hinp. cbn [server_capabilities set_handshake].
  rewrite Hparse. run_monad.
  unfold authenticate. run_monad.
  cbn [identity_provider set_vars_admin set_client_connect_attrs
         set_negotiated set_handshake].
  rewrite Huser. run_monad.
  eexists. split; [reflexivity|]. cbn [inp out conn]. split; [done|].
  by rewrite <- !app_assoc.
Qed.

(** ** The bound on the turns of the command loop *)

Lemma shrinks_same {A} (m : M E A) :
  (forall w, inp (snd (m w)) = inp w) -> shrinks m.
Proof. intros H w. by rewrite H. Qed.

Lemma shrinks_bind {A B} (m : M E A) (k : A -> M E B) :
  shrinks m -> (forall a, shrinks (k a)) -> shrinks (bind E m k).
Proof.
  intros Hm Hk w. unfold bind. specialize (Hm w).
  destruct (m w) as [[a|e] w1]; simpl in *; [|done].
  specialize (Hk a w1). lia.
Qed.

Lemma shrinks_try_except {A} (m : M E A) (h : exn -> M E A) :
  shrinks m -> (forall e, shrinks (h e)) -> shrinks (try_except E m h).
Proof.
  intros Hm Hh w. unfold try_except. specialize (Hm w).
  destruct (m w) as [[a|e] w1]; simpl in *; [done|].
  specialize (Hh e w1). lia.
Qed.

Lemma shrinks_try_finally {A} (m : M E A) (f : M E unit) :
  shrinks m -> shrinks f -> shrinks (try_finally E m f).
Proof.
  intros Hm Hf w. unfold try_finally. specialize (Hm w).
  destruct (m w) as [r w1]. specialize (Hf w1).
  destruct (f w1) as [[[]|e] w2]; simpl in *; lia.
Qed.

Lemma shrinks_lift {A} (r : exn + A) : shrinks (lift E r).
Proof. apply shrinks_same. by destruct r. Qed.

Lemma shrinks_raise_if o : shrinks (raise_if E o).
Proof. apply shrinks_same. by destruct o. Qed.

Lemma shrinks_with_session {A} (f : SessionState E -> A * SessionState E) :
  shrinks (with_session E f).
Proof.
  apply shrinks_same. intros w. unfold with_session. by destruct (f _).
Qed.

Lemma shrinks_read : shrinks (stream_read E).
Proof.
  intros w. unfold stream_read.
  destruct (inp w) eqn:H; simpl; rewrite ?H; simpl; lia.
Qed.

Lemma shrinks_write_all ps : shrinks (write_all E ps).
Proof. apply shrinks_same. intros w. by rewrite write_all_out. Qed.

Lemma shrinks_query sql attrs : shrinks (query E sql attrs).
Proof.
  intros w. destruct (query E sql attrs w) as [r w'] eqn:Hq.
  simpl. apply query_frame in Hq as [_ ->]. done.
Qed.

Lemma auth_rounds_shrinks pending : forall evs d st ai,
  (length (snd (fst (auth_rounds pending evs d st ai))) <= length pending)%nat.
Proof.
  induction pending as [|b pending IH]; intros evs d st ai.
  - by destruct d.
  - destruct d as [p| |]; simpl; [|lia..].
    destruct (AuthState_asend st _) as [e|[d' st']]; simpl; [lia|].
    specialize (IH ((evs ++ [EvWrite (make_auth_more_data p)])
                    ++ [EvRead b]) d' st' (AuthInfo_copy ai b)). lia.
Qed.

Lemma shrinks_auth_loop d st ai : shrinks (auth_loop E d st ai).
Proof.
  intros w. unfold auth_loop.
  pose proof (auth_rounds_shrinks (inp w) (out w) d st ai) as H.
  by destruct (auth_rounds _ _ _ _ _) as [[r pending] evs].
Qed.

Ltac shrinks_step :=
  lazymatch goal with
  | |- shrinks (bind _ _ _) => apply shrinks_bind; [|intros ?]
  | |- shrinks (lift _ _) => apply shrinks_lift
  | |- shrinks (raise_if _ _) => apply shrinks_raise_if
  | |- shrinks (with_session _ _) => apply shrinks_with_session
  | |- shrinks (stream_read _) => apply shrinks_read
  | |- shrinks (write_all _ _) => apply shrinks_write_all
  | |- shrinks (query _ _ _) => apply shrinks_query
  | |- shrinks (auth_loop _ _ _ _) => apply shrinks_auth_loop
  | |- shrinks (match ?x with _ => _ end) => destruct x
  | |- shrinks _ => by apply shrinks_same
  end.

Lemma shrinks_authenticate u r cpn attrs st sp :
  shrinks (authenticate E u r cpn attrs st sp).
Proof.
  unfold authenticate, auth_begin, auth_finish. repeat shrinks_step.
Qed.

Lemma shrinks_dispatch data : shrinks (dispatch E data).
Proof.
  unfold dispatch, handle_query, handle_stmt_prepare,
    handle_stmt_send_long_data, handle_stmt_execute, parse_com_stmt_execute,
    handle_stmt_fetch, handle_stmt_reset, handle_stmt_close, handle_ping,
    handle_change_user, handle_reset_connection, handle_debug.
  repeat first [apply shrinks_authenticate | shrinks_step].
  all: unfold session_init_self; repeat shrinks_step.
Qed.

Lemma shrinks_on_command_error e : shrinks (on_command_error E e).
Proof. unfold on_command_error. repeat shrinks_step. Qed.

(** A turn that asks for another one has taken a packet off the stream. *)
Lemma command_iteration_consumes w go w' :
  command_iteration E w = (Ok go, w') ->
  (go = true -> length (inp w') < length (inp w))%nat.
Proof.
  unfold command_iteration, stream_read.
  destruct (inp w) as [|data more] eqn:Hinp; [by intros [= <- <-]|].
  set (w0 := {| conn := conn w; session := session w; inp := more;
                out := out w ++ [EvRead data] |}).
  intros Hit _.
  pose proof (shrinks_try_finally _ _
                (shrinks_try_except _ _ (shrinks_dispatch data)
                   shrinks_on_command_error)
                (shrinks_same (stream_reset_seq E) (fun _ => eq_refl)))
    as Hs.
  specialize (Hs w0). rewrite Hit in Hs. subst w0. simpl in Hs |- *. lia.
Qed.

(** One turn more than there are packets is enough for the loop. *)
Lemma command_phase_returns turns : forall w,
  (length (inp w) < turns)%nat -> is_Some (command_phase E turns w).
Proof.
  induction turns as [|turns IH]; intros w Hlen; [lia|].
  simpl. destruct (command_iteration E w) as [[[]|e] w'] eqn:Hit; [|done..].
  apply IH. pose proof (command_iteration_consumes _ _ _ Hit eq_refl). lia.
Qed.

Lemma start_returns w : is_Some (start E w).
Proof.
  unfold start. destruct (try_except _ _ _ w) as [[[]|e] w']; [|done].
  destruct (command_phase_returns (S (length (inp w'))) w') as [[r w''] ->];
    [lia|].
  by destruct (session_close_self E w'') as [[[]|e] w3].
Qed.


(** * Further properties of the connection *)

(** ** Result sets on the wire *)

Lemma count_app {A} (test : A -> bool) (l1 l2 : list A) :
  count test (l1 ++ l2) = (count test l1 + count test l2)%nat.
Proof. unfold count. by rewrite List.filter_app, length_app. Qed.

Lemma count_map_none {A B} (test : B -> bool) (f : A -> B) (l : list A) :
  (forall a, test (f a) = false) -> count test (map f l) = 0%nat.
Proof.
  intros H. unfold count. induction l as [|a l IH]; [done|].
  simpl. by rewrite H.
Qed.


(** X2.  A [COM_STMT_EXECUTE] without the cursor flag whose query gives a
    result set sends it at once: the bare column count, the column
    definitions, an EOF packet unless [CLIENT_DEPRECATE_EOF] is negotiated,
    every row in binary form and a closing OK-or-EOF packet with no flags
    (so two EOF packets, or none).  The statement keeps the cursor it had;
    only its long-data buffers are gone. *)
Theorem execute_without_cursor w dx id st body rs wq :
  parse_com_stmt_execute_stmt_id E dx = inr id ->
  prepared_stmts (conn w) !! id = Some st ->
  parse_com_stmt_execute_body E (capabilities (conn w))
    (client_charset (vars (conn w))) dx st = inr body ->
  cx_use_cursor body = false ->
  query E (cx_sql body) (cx_query_attrs body)
    (snd (update_stmt E id (set_param_buffers None) w)) = (Ok rs, wq) ->
  result_set_bool E rs = true ->
  handle_stmt_execute E dx w
  = (Ok tt, advance wq (inp wq)
              (map EvWrite (binary_resultset (conn wq) rs)))
  /\ prepared_stmts (conn wq) !! id = Some (set_param_buffers None st)
  /\ count is_eof (binary_resultset (conn wq) rs)
     = (if deprecate_eof (conn wq) then 0 else 2)%nat.
Proof.
  intros Hid Hst Hbody Hcur Hq Htrue.
  destruct (query_frame _ _ _ _ _ Hq) as ((v & a & Hc) & _).
  simpl in Hc. split; [|split].
  - unfold handle_stmt_execute, parse_com_stmt_execute.
    run_monad. rewrite Hid. run_monad. unfold get_stmt. rewrite Hst.
    run_monad. rewrite Hbody. run_monad.
    unfold update_stmt in Hq. revert Hq. run_monad. intros Hq. rewrite Hq.
    rewrite Htrue. cbn [negb]. run_monad. rewrite write_all_out. run_monad.
    rewrite Hcur. unfold advance, binary_resultset, ok_or_eof, ok, eof,
      deprecate_eof, column_definition.
    destruct (flag_in CLIENT_DEPRECATE_EOF (capabilities (conn wq)));
      run_monad; rewrite write_all_out; run_monad;
      rewrite ?map_app, <- ?app_assoc; simpl; rewrite <- ?app_assoc;
      reflexivity.
  - rewrite Hc. simpl. by rewrite lookup_alter_eq, Hst.
  - unfold binary_resultset, deprecate_eof. rewrite !count_app.
    rewrite !count_map_none by done.
    by destruct (flag_in CLIENT_DEPRECATE_EOF (capabilities (conn wq))).
Qed.

(** ** Commands the loop does not know *)

Lemma known_command_false command :
  known_command command = false ->
  Byte.eqb command COM_QUERY = false
  /\ Byte.eqb command COM_STMT_PREPARE = false
  /\ Byte.eqb command COM_STMT_SEND_LONG_DATA = false
  /\ Byte.eqb command COM_STMT_EXECUTE = false
  /\ Byte.eqb command COM_STMT_FETCH = false
  /\ Byte.eqb command COM_STMT_RESET = false
  /\ Byte.eqb command COM_STMT_CLOSE = false
  /\ Byte.eqb command COM_PING = false
  /\ Byte.eqb command COM_CHANGE_USER = false
  /\ Byte.eqb command COM_RESET_CONNECTION = false
  /\ Byte.eqb command COM_DEBUG = false
  /\ Byte.eqb command COM_QUIT = false.
Proof.
  unfold known_command. cbn [existsb]. intros H.
  repeat (apply orb_false_elim in H as [? H]). done.
Qed.

(** X3.  A packet that is empty, or whose first byte is none of the twelve
    known commands, is answered by one ERR packet (a generic one for the
    empty packet, [UNKNOWN_COM_ERROR] naming the byte otherwise); the
    connection is left as it was and the loop goes on. *)
Theorem unknown_command w data more :
  inp w = data :: more ->
  match data with
  | [] => True
  | command :: _ => known_command command = false
  end ->
  command_iteration E w
  = (Ok true,
     advance w more
       [EvRead data;
        EvWrite (match data with
                 | [] => error (conn w) (MsgExn IndexError) None
                 | command :: _ =>
                     error (conn w)
                       (MsgStr ("Unsupported Command: " +:+ hex command))
                       (Some UNKNOWN_COM_ERROR)
                 end);
        EvResetSeq]).
Proof.
  intros Hinp Hdata. unfold command_iteration, stream_read. rewrite Hinp.
  unfold advance. destruct data as [|command rest].
  - unfold dispatch. run_monad. unfold on_command_error. run_monad.
    by rewrite <- !app_assoc.
  - apply known_command_false in Hdata
      as (H1 & H2 & H3 & H4 & H5 & H6 & H7 & H8 & H9 & H10 & H11 & H12).
    unfold dispatch. rewrite H1, H2, H3, H4, H5, H6, H7, H8, H9, H10, H11, H12.
    run_monad. unfold on_command_error. run_monad.
    by rewrite <- !app_assoc.
Qed.

Lemma dispatch_go data w go w' :
  dispatch E data w = (Ok go, w') -> go = negb (is_quit data).
Proof.
  unfold dispatch. destruct data as [|command rest]; [done|].
  cbn [is_quit].
  repeat match goal with
         | |- (if Byte.eqb command ?k then _ else _) w = _ -> _ =>
             destruct (Byte.eqb command k) eqn:?;
             [match goal with
              | H : Byte.eqb command _ = true |- _ =>
                  apply Byte.byte_dec_bl in H; subst command
              end|]
         end;
    try (unfold bind; match goal with
                      | |- (let (_, _) := ?h in _) = _ -> _ =>
                          destruct h as [[[]|?] ?]
                      end; unfold ret; by intros [= <- <-]).
  - unfold ret. by intros [= <- <-].
  - done.
Qed.

(** X4.  The command loop goes on after every command, failed or not,
    except [COM_QUIT]; a [COM_QUIT], whatever bytes follow the command
    byte, writes nothing and leaves the connection as it was. *)
Theorem loop_ends_on_quit_only w data more :
  inp w = data :: more ->
  fst (command_iteration E w) = Ok (negb (is_quit data))
  /\ (is_quit data = true ->
      command_iteration E w
      = (Ok false, advance w more [EvRead data; EvResetSeq])).
Proof.
  intros Hinp. split.
  - unfold command_iteration, stream_read. rewrite Hinp.
    unfold try_finally, try_except.
    destruct (dispatch E data _) as [[go|e] w1] eqn:Hd.
    + apply dispatch_go in Hd as ->. done.
    + destruct (on_command_error_returns e w1) as (w2 & ->).
      unfold stream_reset_seq, emit. simpl.
      destruct data as [|command rest]; [done|].
      simpl. destruct (Byte.eqb command COM_QUIT) eqn:Hq; [|done].
      apply Byte.byte_dec_bl in Hq. subst command. by simpl in Hd.
  - intros Hq. destruct data as [|command rest]; [done|].
    simpl in Hq. apply Byte.byte_dec_bl in Hq. subst command.
    unfold command_iteration, stream_read. rewrite Hinp.
    unfold dispatch. simpl. run_monad. unfold advance.
    by rewrite <- !app_assoc.
Qed.

(** ** What [authenticate] does *)

Lemma same_conn_bind {A B} (m : M E A) (k : A -> M E B) :
  same_conn m -> (forall a, same_conn (k a)) -> same_conn (bind E m k).
Proof.
  intros Hm Hk w. unfold bind. specialize (Hm w).
  destruct (m w) as [[a|e] w1]; simpl in *; [|done].
  by rewrite Hk.
Qed.

Lemma same_conn_lift {A} (r : exn + A) : same_conn (lift E r).
Proof. intros w. by destruct r. Qed.

Lemma same_conn_read : same_conn (stream_read E).
Proof. intros w. unfold stream_read. by destruct (inp w). Qed.

Lemma same_conn_auth_loop d st ai : same_conn (auth_loop E d st ai).
Proof.
  intros w. unfold auth_loop.
  by destruct (auth_rounds _ _ _ _ _) as [[r pending] evs].
Qed.

Ltac same_conn_step :=
  lazymatch goal with
  | |- same_conn (bind _ _ _) => apply same_conn_bind; [|intros ?]
  | |- same_conn (lift _ _) => apply same_conn_lift
  | |- same_conn (stream_read _) => apply same_conn_read
  | |- same_conn (auth_loop _ _ _ _) => apply same_conn_auth_loop
  | |- same_conn (match ?x with _ => _ end) => destruct x
  | |- same_conn _ => by intros ?
  end.

Lemma same_conn_auth_begin c up ai cpn st sp :
  same_conn (auth_begin E c up ai cpn st sp).
Proof. unfold auth_begin. repeat same_conn_step. Qed.

(** X5.  [authenticate] changes nothing of the connection but the user
    name, and that only together with the OK packet.  When it returns it
    has just written its verdict: OK with the user name set to what the
    plugin authenticated, or an ERR packet with [USER_DOES_NOT_EXIST] or
    [ACCESS_DENIED_ERROR] and the connection as it was.  When it raises the
    connection is as it was. *)
Theorem authenticate_verdict w user_name' auth_response cpn attrs st sp :
  match authenticate E user_name' auth_response cpn attrs st sp w with
  | (Ok _, w') =>
      exists p, last (out w') = Some (EvWrite p) /\ is_verdict (conn w) p
                /\ match p with
                   | make_ok _ _ _ =>
                       exists a,
                         conn w'
                         = set_vars_admin (vars (conn w))
                             (set_username (Some a) (admin (conn w)))
                             (conn w)
                   | _ => conn w' = conn w
                   end
  | (Raise _, w') => conn w' = conn w
  end.
Proof.
  unfold authenticate. unfold bind at 1, get_conn. cbn [fst snd].
  destruct (get_user _ _) as [user|].
  - destruct (handshake_auth_plugin (conn w)) as [hp|]; [|done].
    unfold bind at 1.
    pose proof (same_conn_auth_begin (conn w) (user_plugin_of (conn w) user)
                  {| ai_username := user_name'; ai_data := auth_response;
                     ai_connect_attrs := attrs; ai_user := user;
                     ai_client_plugin_name := cpn;
                     ai_handshake_auth_data := handshake_auth_data (conn w);
                     ai_handshake_plugin_name := hp |} cpn st sp w) as Hb.
    destruct (auth_begin E _ _ _ cpn st sp w) as [[[[d s] i]|e] w0];
      simpl in Hb; [|done].
    unfold bind at 1.
    pose proof (same_conn_auth_loop d s i w0) as Hsame.
    destruct (auth_loop E d s i w0) as [[[v i']|e] w1]; simpl in Hsame;
      [|congruence].
    rewrite Hb in Hsame.
    destruct v as [a|msg]; simpl; run_monad.
    + eexists. rewrite last_snoc. split; [done|]. rewrite Hsame.
      split; [by left|]. unfold ok. eauto.
    + eexists. rewrite last_snoc. split; [done|]. rewrite Hsame.
      split; [right; eauto|done].
  - run_monad. eexists. rewrite last_snoc. split; [done|].
    split; [right; eauto|done].
Qed.

Lemma bind_assoc {A B C} (m : M E A) (k : A -> M E B) (h : B -> M E C) w :
  bind E (bind E m k) h w = bind E m (fun a => bind E (k a) h) w.
Proof. unfold bind. by destruct (m w) as [[a|e] w1]. Qed.

(** X6.  When the plugin of the user wants a client plugin other than the
    one the client declared and opens with bytes, the first thing
    [authenticate] writes is an AuthSwitchRequest naming that client
    plugin and carrying those bytes, and it writes no second one. *)
Theorem auth_switch_on_mismatch w user_name' auth_response cpn attrs st sp
    user hp n d st0 :
  get_user (identity_provider (conn w)) user_name' = Some user ->
  handshake_auth_plugin (conn w) = Some hp ->
  optimistic_match sp (user_plugin_of (conn w) user) cpn = false ->
  plugin_accepts (user_plugin_of (conn w) user) cpn = false ->
  plugin_client_plugin_name (user_plugin_of (conn w) user) = Some n ->
  n <> EmptyString ->
  AuthPlugin_start (user_plugin_of (conn w) user) None
  = inr (DBytes d, st0) ->
  exists evs,
    out (snd (authenticate E user_name' auth_response cpn attrs st sp w))
    = out w
      ++ EvWrite (make_auth_switch_request (server_charset (vars (conn w)))
                    n d) :: evs
    /\ Forall not_auth_switch evs.
Proof.
  intros Huser Hhp Hopt Hacc Hn Hne Hstart.
  unfold authenticate. unfold bind at 1, get_conn. cbn [fst snd].
  rewrite Huser, Hhp. unfold auth_begin. rewrite Hopt, Hacc, Hstart, Hn.
  assert (Htruthy : str_truthy (Some n) = true).
  { simpl. destruct (String.eqb_spec n EmptyString); done. }
  rewrite Htruthy.
  assert (Hor : str_or (Some n) EmptyString = n).
  { simpl. destruct (String.eqb_spec n EmptyString); done. }
  rewrite Hor.
  unfold lift at 1, ret at 1. rewrite !bind_assoc.
  unfold bind at 1, ret. cbn [fst snd].
  rewrite bind_assoc. unfold bind at 1, stream_write, emit. cbn [fst snd].
  match goal with
  | |- context [bind E ?m ?k ?w0] =>
      assert (Hrest : emits not_auth_switch (bind E m k))
  end.
  { emits_auto. all: by apply emits_nothing. }
  match goal with
  | |- context [bind E ?m ?k ?w0] => destruct (Hrest w0) as (evs & Ho & HP)
  end.
  exists evs. split; [|done]. rewrite Ho. simpl.
  by rewrite <- app_assoc.
Qed.

(** X7.  Whenever the plugin of the user accepts the client plugin the
    client declared (it wants none, or that one), [authenticate] writes no
    AuthSwitchRequest, with or without a server plugin, at the handshake
    and at [COM_CHANGE_USER]; it writes none for an unknown user either. *)
Theorem no_auth_switch_when_accepted w user_name' auth_response cpn attrs
    st sp :
  match get_user (identity_provider (conn w)) user_name' with
  | Some user => plugin_accepts (user_plugin_of (conn w) user) cpn = true
  | None => True
  end ->
  exists evs,
    out (snd (authenticate E user_name' auth_response cpn attrs st sp w))
    = out w ++ evs
    /\ Forall not_auth_switch evs.
Proof.
  intros Hacc.
  unfold authenticate. unfold bind at 1, get_conn. cbn [fst snd].
  destruct (get_user _ _) as [user|].
  - destruct (handshake_auth_plugin (conn w)) as [hp|].
    + refine (emits_bind _ _ _ _ _ w).
      * unfold auth_begin. rewrite Hacc.
        destruct (optimistic_match _ _ _); emits_auto.
      * intros [[d s] ai]. emits_auto.
    + exists []. by rewrite app_nil_r.
  - refine (emits_emit _ _ _ w). done.
Qed.

(** ** Prompts and reads during authentication *)

Lemma count_nil {A} (test : A -> bool) : count test [] = 0%nat.
Proof. done. Qed.

Lemma balanced_silent {A} (m : M E A) :
  (forall w, out (snd (m w)) = out w /\ inp (snd (m w)) = inp w) ->
  balanced m.
Proof.
  intros H w. destruct (H w) as [Ho Hi]. exists [].
  rewrite app_nil_r, Hi. split; [done|]. split; [done|].
  destruct (fst (m w)); unfold count; simpl; lia.
Qed.

Lemma balanced_bind {A B} (m : M E A) (k : A -> M E B) :
  balanced m -> (forall a, balanced (k a)) -> balanced (bind E m k).
Proof.
  intros Hm Hk w. unfold bind. destruct (Hm w) as (evs & Ho & Hi & Hc).
  destruct (m w) as [[a|e] w1]; simpl in *; [|eauto].
  destruct (Hk a w1) as (evs' & Ho' & Hi' & Hc'). exists (evs ++ evs').
  rewrite Ho', Ho, app_assoc, !count_app. split; [done|]. split; [lia|].
  destruct (fst (k a w1)); lia.
Qed.

Lemma balanced_lift {A} (r : exn + A) : balanced (lift E r).
Proof. apply balanced_silent. by destruct r. Qed.

Lemma balanced_emit e :
  is_prompt e = false -> is_read e = false -> balanced (emit E e).
Proof.
  intros Hp Hr w. exists [e]. simpl. unfold count. simpl.
  rewrite Hp, Hr. simpl. done.
Qed.

(** A prompt and the read that follows it. *)
Lemma balanced_prompt {A} p (k : bytes -> M E A) :
  is_prompt (EvWrite p) = true -> (forall b, balanced (k b)) ->
  balanced (bind E (stream_write E p) (fun _ => bind E (stream_read E) k)).
Proof.
  intros Hp Hk w. unfold bind, stream_write, emit, stream_read.
  cbn [fst snd inp out conn session].
  destruct (inp w) as [|b more] eqn:Hinp.
  - exists [EvWrite p]. cbn [fst snd inp out]. rewrite ?Hinp.
    split; [done|]. destruct p; try discriminate Hp; unfold count; simpl; lia.
  - match goal with
    | |- context [k b ?w0] => destruct (Hk b w0) as (evs & Ho & Hi & Hc)
    end.
    cbn [inp out] in *.
    exists ([EvWrite p; EvRead b] ++ evs).
    split; [by rewrite Ho, <- !app_assoc|]. rewrite !count_app.
    replace (count is_read [EvWrite p; EvRead b]) with 1%nat
      by (by destruct p).
    replace (count is_prompt [EvWrite p; EvRead b]) with 1%nat
      by (by destruct p).
    split; [simpl in *; lia|]. destruct (fst (k b _)); lia.
Qed.

Lemma auth_rounds_balanced pending : forall evs d st ai,
  exists new,
    snd (auth_rounds pending evs d st ai) = evs ++ new
    /\ length pending
       = (count is_read new
          + length (snd (fst (auth_rounds pending evs d st ai))))%nat
    /\ match fst (fst (auth_rounds pending evs d st ai)) with
       | Ok _ => count is_prompt new = count is_read new
       | Raise _ =>
           (count is_read new <= count is_prompt new
            <= count is_read new + 1)%nat
       end.
Proof.
  induction pending as [|b pending IH]; intros evs d st ai.
  - destruct d; simpl; [|exists []; by rewrite app_nil_r..].
    eexists. split; [done|]. unfold count. simpl. split; lia.
  - destruct d as [p| |]; simpl; [|exists []; by rewrite app_nil_r..].
    destruct (AuthState_asend st _) as [e|[d' st']].
    + simpl. rewrite <- app_assoc. eexists. split; [done|].
      unfold count. simpl. split; lia.
    + destruct (IH ((evs ++ [EvWrite (make_auth_more_data p)])
                    ++ [EvRead b]) d' st' (AuthInfo_copy ai b))
        as (new & Ho & Hi & Hc).
      exists ([EvWrite (make_auth_more_data p); EvRead b] ++ new).
      split; [by rewrite Ho, <- !app_assoc|].
      rewrite !count_app.
      replace (count is_prompt [EvWrite (make_auth_more_data p); EvRead b])
        with 1%nat by done.
      replace (count is_read [EvWrite (make_auth_more_data p); EvRead b])
        with 1%nat by done.
      simpl. split; [lia|].
      destruct (fst (fst (auth_rounds _ _ _ _ _))); lia.
Qed.

Lemma balanced_auth_loop d st ai : balanced (auth_loop E d st ai).
Proof.
  intros w. unfold auth_loop.
  destruct (auth_rounds_balanced (inp w) (out w) d st ai)
    as (new & Ho & Hi & Hc).
  destruct (auth_rounds _ _ _ _ _) as [[r pending] evs]. simpl in *.
  eauto.
Qed.

Ltac balanced_step :=
  lazymatch goal with
  | |- balanced (bind _ (stream_write _ _) (fun _ => bind _ (stream_read _) _))
      => apply balanced_prompt; [done|intros ?]
  | |- balanced (bind _ _ _) => apply balanced_bind; [|intros ?]
  | |- balanced (lift _ _) => apply balanced_lift
  | |- balanced (auth_loop _ _ _ _) => apply balanced_auth_loop
  | |- balanced (stream_write _ _) => by apply balanced_emit
  | |- balanced (match ?x with _ => _ end) => destruct x
  | |- balanced _ => by apply balanced_silent
  end.

(** X8.  During authentication the server reads a client packet only
    right after it has asked for one with an AuthSwitchRequest or an
    AuthMoreData packet.  When [authenticate] returns it has consumed
    exactly as many client packets as it has written such prompts; when it
    raises it has consumed as many, or one less when the client went away
    instead of answering. *)
Theorem authenticate_balanced user_name' auth_response cpn attrs st sp :
  balanced (authenticate E user_name' auth_response cpn attrs st sp).
Proof.
  unfold authenticate, auth_begin, auth_finish. repeat balanced_step.
Qed.

(** ** How [start] ends *)

Lemma count_none {A} (test : A -> bool) (l : list A) :
  Forall (fun a => test a = false) l -> count test l = 0%nat.
Proof.
  unfold count. induction 1 as [|a l Ha _ IH]; [done|].
  simpl. by rewrite Ha.
Qed.

Lemma handler_event_not_close evs :
  Forall handler_event evs ->
  Forall (fun e => is_session_close e = false) evs.
Proof. intros H. eapply Forall_impl; [exact H|]. by intros []. Qed.

Lemma command_iteration_events w :
  exists go w' evs,
    command_iteration E w = (Ok go, w') /\ out w' = out w ++ evs
    /\ Forall (fun e => is_session_close e = false) evs.
Proof.
  unfold command_iteration, stream_read.
  destruct (inp w) as [|data more].
  { exists false, w, []. by rewrite app_nil_r. }
  unfold try_finally, try_except.
  match goal with
  | |- context [dispatch E data ?w0] =>
      destruct (emits_dispatch data w0) as (evs & Ho & HP);
      destruct (dispatch E data w0) as [[go|e] w1]; simpl in Ho
  end.
  - eexists go, _, ([EvRead data] ++ evs ++ [EvResetSeq]).
    unfold stream_reset_seq, emit. simpl. split; [done|].
    rewrite Ho. simpl. rewrite <- !app_assoc. split; [done|].
    constructor; [done|]. apply Forall_app. split; [|by constructor].
    by apply handler_event_not_close.
  - destruct (emits_on_command_error e w1) as (evs' & Ho' & HP').
    destruct (on_command_error_returns e w1) as (w2 & Hret).
    rewrite Hret in Ho' |- *. simpl in Ho'.
    eexists true, _, ([EvRead data] ++ (evs ++ evs') ++ [EvResetSeq]).
    unfold stream_reset_seq, emit. simpl. split; [done|].
    rewrite Ho', Ho. simpl. rewrite <- !app_assoc. split; [done|].
    constructor; [done|]. rewrite app_assoc. apply Forall_app.
    split; [|by constructor].
    apply handler_event_not_close. by apply Forall_app.
Qed.

(** The command loop neither raises nor closes the session. *)
Lemma command_phase_events turns : forall w r w',
  command_phase E turns w = Some (r, w') ->
  r = Ok tt
  /\ exists evs, out w' = out w ++ evs
                 /\ Forall (fun e => is_session_close e = false) evs.
Proof.
  induction turns as [|turns IH]; intros w r w'; [done|].
  simpl. destruct (command_iteration_events w) as (go & w1 & evs & -> & Ho & HP).
  destruct go.
  - intros H. apply IH in H as (-> & evs' & Ho' & HP'). split; [done|].
    exists (evs ++ evs'). rewrite Ho', Ho, app_assoc.
    split; [done|by apply Forall_app].
  - intros [= <- <-]. eauto.
Qed.

(** X9.  [start] ends in one of two ways.  If the connection phase and
    [session.init] return, the command loop runs and [start] calls
    [session.close] exactly once, as the last thing it does.  If either of
    them raises, the last thing [start] does is to write an ERR packet
    with [HANDSHAKE_ERROR] made from the exception, which it raises again;
    the session is not closed. *)
Theorem start_ends w :
  match bind E (connection_phase E) (fun _ => session_init_self E) w with
  | (Ok _, _) =>
      exists r w' evs,
        start E w = Some (r, w')
        /\ out w' = out w ++ evs ++ [EvSessionClose]
        /\ count is_session_close evs = 0%nat
  | (Raise e, w1) =>
      exists evs,
        start E w
        = Some (Raise e,
                advance w1 (inp w1)
                  [EvWrite (error (conn w1) (MsgExn e)
                              (Some HANDSHAKE_ERROR))])
        /\ out w1 = out w ++ evs
        /\ count is_session_close evs = 0%nat
  end.
Proof.
  assert (Hhs : emits (fun e => is_session_close e = false)
                  (bind E (connection_phase E)
                     (fun _ => session_init_self E))).
  { intros v. unfold bind.
    pose proof (connection_phase_resets_last v) as Hc.
    destruct (connection_phase E v) as [[[]|e] v1].
    - destruct Hc as (evs & Ho & HP).
      destruct (emits_session_init v1) as (evs' & Ho' & HP').
      exists ((evs ++ [EvResetSeq]) ++ evs'). rewrite Ho', Ho, <- !app_assoc.
      split; [done|]. rewrite app_assoc. apply Forall_app.
      split; [|by apply handler_event_not_close].
      apply Forall_app. split; [by apply handler_event_not_close|].
      by constructor.
    - destruct Hc as (evs & Ho & HP). exists evs.
      split; [done|by apply handler_event_not_close]. }
  unfold start, try_except.
  destruct (Hhs w) as (evs & Ho & HP).
  destruct (bind E (connection_phase E) _ w) as [[[]|e] w1]; simpl in Ho.
  - destruct (command_phase_returns (S (length (inp w1))) w1)
      as [[r w2] Hrun]; [lia|].
    rewrite Hrun. apply command_phase_events in Hrun
      as (-> & evs' & Ho' & HP').
    unfold session_close_self. run_monad. unfold with_session.
    cbn [session fst snd].
    destruct (session_close E (session w2)) as [[e|] s]; simpl;
      eexists _, _, (evs ++ evs'); (split; [reflexivity|]); simpl;
      rewrite Ho', Ho, <- !app_assoc; (split; [done|]);
      apply count_none; by apply Forall_app.
  - run_monad. unfold advance. exists evs. split; [done|].
    split; [done|]. by apply count_none.
Qed.

(** ** The statement registry *)

(** X10.  A [COM_STMT_PREPARE] whose SQL decodes registers a statement
    without long data or cursor under the next id of the sequence, with
    the number of parameter markers found in the SQL; the statement can be
    looked up under that id, no other id is affected, and the response
    announces the same id and count.  One whose SQL does not decode raises
    before an id is taken: sequence and registry stay as they were. *)
Theorem prepare_registers w data :
  match charset_decode E (client_charset (vars (conn w))) data with
  | inr s =>
      exists w',
        handle_stmt_prepare E data w = (Ok tt, w')
        /\ get_stmt (conn w') (next_stmt_id (conn w))
           = inr {| stmt_id := next_stmt_id (conn w); sql := s;
                    num_params := length (REGEX_PARAM_findall E s);
                    param_buffers := None; cursor := None |}
        /\ (forall k, k <> next_stmt_id (conn w) ->
              prepared_stmts (conn w') !! k = prepared_stmts (conn w) !! k)
        /\ prepared_stmt_seq (conn w')
           = snd (utils.next (prepared_stmt_seq (conn w)))
        /\ exists rest,
             out w'
             = out w
               ++ EvWrite (make_com_stmt_prepare_ok (next_stmt_id (conn w)) s
                             (length (REGEX_PARAM_findall E s))) :: rest
  | inl e => handle_stmt_prepare E data w = (Raise e, w)
  end.
Proof.
  unfold handle_stmt_prepare. run_monad.
  destruct (charset_decode E _ data) as [e|s]; run_monad; [by destruct w|].
  unfold utils.next. run_monad. rewrite write_all_out. run_monad.
  eexists. split; [reflexivity|]. cbn [conn out].
  unfold get_stmt, next_stmt_id, utils.next. cbn [fst prepared_stmts set_stmts].
  rewrite lookup_insert_eq. split; [done|].
  split; [intros k Hk; by rewrite lookup_insert_ne|].
  split; [done|]. unfold com_stmt_prepare_response. cbn [app map].
  eauto.
Qed.

(** X11.  A [COM_STMT_SEND_LONG_DATA] for a registered statement appends
    its payload to the buffer of the one parameter it names and writes
    nothing to the client; the buffers of the other parameters, the cursor
    of the statement and all other statements stay as they were. *)
Theorem long_data_touches_one_buffer w pkt id i d st :
  prepared_stmts (conn w) !! id = Some st ->
  parse_com_stmt_send_long_data E pkt
  = inr {| ld_stmt_id := id; ld_param_id := i; ld_data := d |} ->
  exists w1 st1,
    handle_stmt_send_long_data E pkt w = (Ok tt, w1)
    /\ out w1 = out w
    /\ prepared_stmts (conn w1) !! id = Some st1
    /\ long_data st1 i = Some (default [] (long_data st i) ++ d)
    /\ (forall j, j <> i -> long_data st1 j = long_data st j)
    /\ cursor st1 = cursor st
    /\ (forall k, k <> id ->
          prepared_stmts (conn w1) !! k = prepared_stmts (conn w) !! k).
Proof.
  intros Hst Hp. unfold handle_stmt_send_long_data. rewrite Hp. run_monad.
  unfold get_stmt. cbn [ld_stmt_id ld_param_id ld_data]. rewrite Hst.
  run_monad. eexists _, _. split; [reflexivity|]. cbn [conn out].
  split; [done|]. cbn [prepared_stmts set_stmts].
  rewrite lookup_alter_eq, Hst. split; [done|].
  split; [apply long_data_extend|]. split; [|split; [done|]].
  - intros j Hj. unfold long_data, extend_param_buffer. simpl.
    rewrite lookup_insert_ne by done.
    destruct (param_buffers st); [done|by rewrite lookup_empty].
  - intros k Hk. by rewrite lookup_alter_ne.
Qed.

(** ** Cursors over several commands *)



(** X13.  [COM_STMT_RESET] on a registered statement answers OK, drops its
    long data and closes its cursor; a [COM_STMT_FETCH] that follows fails
    on the missing cursor, so the command loop answers it with a generic
    ERR packet (no error code of its own) and changes nothing. *)
Theorem reset_closes_cursor w dr df more id n st :
  parse_com_stmt_reset E dr = inr id ->
  parse_handle_stmt_fetch E df
  = inr {| cf_stmt_id := id; cf_num_rows := n |} ->
  prepared_stmts (conn w) !! id = Some st ->
  exists w1,
    handle_stmt_reset E dr w = (Ok tt, w1)
    /\ out w1 = out w ++ [EvWrite (ok (conn w) no_kwargs)]
    /\ prepared_stmts (conn w1) !! id
       = Some {| stmt_id := stmt_id st; sql := sql st;
                 num_params := num_params st;
                 param_buffers := None; cursor := None |}
    /\ (inp w1 = (COM_STMT_FETCH :: df) :: more ->
        command_iteration E w1
        = (Ok true,
           advance w1 more
             [EvRead (COM_STMT_FETCH :: df);
              EvWrite (error (conn w1) (MsgExn AssertionError) None);
              EvResetSeq])).
Proof.
  intros Hr Hf Hst. unfold handle_stmt_reset. rewrite Hr. run_monad.
  unfold get_stmt. rewrite Hst. run_monad.
  eexists. split; [reflexivity|]. cbn [conn out inp].
  split; [done|]. cbn [prepared_stmts set_stmts].
  rewrite lookup_alter_eq, Hst. split; [done|].
  intros Hinp. unfold command_iteration, stream_read. cbn [inp].
  rewrite Hinp. unfold dispatch. simpl. unfold handle_stmt_fetch.
  rewrite Hf. run_monad. unfold get_stmt. cbn [cf_stmt_id prepared_stmts
    set_stmts conn]. rewrite lookup_alter_eq, Hst. simpl. run_monad.
  unfold on_command_error. run_monad. unfold advance. simpl.
  by rewrite <- !app_assoc.
Qed.

(** ** What the command phase keeps *)

Lemma command_frame_refl c : command_frame c c.
Proof. by repeat split. Qed.

Lemma command_frame_trans c1 c2 c3 :
  command_frame c1 c2 -> command_frame c2 c3 -> command_frame c1 c3.
Proof.
  intros [(?&?&?&?&?&?&?&?&?&?) Hk] [(?&?&?&?&?&?&?&?&?&?) Hk'].
  split; [repeat split; congruence|auto].
Qed.

Lemma command_frame_vars_admin v a c :
  command_frame c (set_vars_admin v a c).
Proof. by repeat split. Qed.

Lemma command_frame_alter s f id c :
  (forall st, stmt_id (f st) = stmt_id st) ->
  command_frame c (set_stmts s (alter f id (prepared_stmts c)) c).
Proof.
  intros Hf. split; [by repeat split|]. intros Hk k st. simpl.
  destruct (decide (id = k)) as [->|Hne].
  - rewrite lookup_alter_eq. destruct (prepared_stmts c !! k) eqn:Hl; [|done].
    simpl. intros [= <-]. rewrite Hf. by apply Hk.
  - rewrite lookup_alter_ne by done. apply Hk.
Qed.

Lemma command_frame_insert s st c :
  command_frame c (set_stmts s (<[stmt_id st := st]> (prepared_stmts c)) c).
Proof.
  split; [by repeat split|]. intros Hk k st'. simpl.
  destruct (decide (stmt_id st = k)) as [<-|Hne].
  - rewrite lookup_insert_eq. by intros [= <-].
  - rewrite lookup_insert_ne by done. apply Hk.
Qed.

Lemma command_frame_delete s id c :
  command_frame c (set_stmts s (delete id (prepared_stmts c)) c).
Proof.
  split; [by repeat split|]. intros Hk k st. simpl.
  destruct (decide (id = k)) as [->|Hne].
  - by rewrite lookup_delete_eq.
  - rewrite lookup_delete_ne by done. apply Hk.
Qed.

Lemma command_frame_change_user cu c :
  command_frame c (change_user_assign cu c).
Proof.
  unfold change_user_assign.
  destruct (cu_connect_attrs cu), (cu_client_charset cu); by repeat split.
Qed.

(** A computation that keeps to [command_frame]. *)
Lemma authenticate_conn u r cpn attrs st sp w res w' :
  authenticate E u r cpn attrs st sp w = (res, w') ->
  conn w' = conn w
  \/ exists a,
       conn w' = set_vars_admin (vars (conn w))
                   (set_username (Some a) (admin (conn w))) (conn w).
Proof.
  unfold authenticate. unfold bind at 1, get_conn. cbn [fst snd].
  destruct (get_user _ _) as [user|]; [|by intros [= _ <-]; left].
  destruct (handshake_auth_plugin (conn w)) as [hp|];
    [|by intros [= _ <-]; left].
  unfold bind at 1.
  match goal with
  | |- context [auth_begin E ?c ?up ?ai cpn st sp w] =>
      pose proof (same_conn_auth_begin c up ai cpn st sp w) as Hb;
      destruct (auth_begin E c up ai cpn st sp w) as [[[[d s] i]|e] w0]
  end; simpl in Hb; [|by intros [= _ <-]; left].
  unfold bind at 1.
  pose proof (same_conn_auth_loop d s i w0) as Hl.
  destruct (auth_loop E d s i w0) as [[[v i']|e] w1]; simpl in Hl;
    [|intros [= _ <-]; left; congruence].
  rewrite Hb in Hl.
  destruct v as [a|msg]; simpl; run_monad; intros [= _ <-]; simpl;
    rewrite Hl; eauto.
Qed.

Lemma authenticate_frame u r cpn attrs st sp w :
  command_frame (conn w) (conn (snd (authenticate E u r cpn attrs st sp w))).
Proof.
  destruct (authenticate E u r cpn attrs st sp w) as [res w'] eqn:Ha.
  simpl. apply authenticate_conn in Ha as [->|[a ->]].
  - apply command_frame_refl.
  - apply command_frame_vars_admin.
Qed.

Lemma query_command_frame sql attrs w :
  command_frame (conn w) (conn (snd (query E sql attrs w))).
Proof.
  destruct (query E sql attrs w) as [r w'] eqn:Hq. simpl.
  apply query_frame in Hq as [(v & a & ->) _]. apply command_frame_vars_admin.
Qed.

Lemma session_init_conn w : conn (snd (session_init_self E w)) = conn w.
Proof.
  unfold session_init_self. run_monad. unfold with_session. simpl.
  by destruct (session_init E _ _) as [[e|] s].
Qed.

Lemma dispatch_frame data w :
  command_frame (conn w) (conn (snd (dispatch E data w))).
Proof.
  unfold dispatch. destruct data as [|command rest];
    [apply command_frame_refl|].
  repeat match goal with
         | |- context [if Byte.eqb command ?k then _ else _] =>
             destruct (Byte.eqb command k)
         end;
    try apply command_frame_refl.
  - (* COM_QUERY *)
    unfold handle_query. run_monad.
    destruct (parse_com_query E _ _ rest) as [e|q]; run_monad;
      [apply command_frame_refl|].
    pose proof (query_command_frame (cq_sql q) (cq_query_attrs q) w) as Hq.
    destruct (query E _ _ w) as [[rs|e] wq]; simpl in Hq; [|done].
    destruct (result_set_bool E rs); cbn [negb]; run_monad;
      rewrite ?write_all_out; done.
  - (* COM_STMT_PREPARE *)
    unfold handle_stmt_prepare. run_monad.
    destruct (charset_decode E _ rest) as [e|s]; run_monad;
      [apply command_frame_refl|].
    unfold utils.next. run_monad. rewrite write_all_out. run_monad.
    apply (command_frame_insert _
             {| stmt_id := utils.value (prepared_stmt_seq (conn w)) |}).
  - (* COM_STMT_SEND_LONG_DATA *)
    unfold handle_stmt_send_long_data. run_monad.
    destruct (parse_com_stmt_send_long_data E rest) as [e|p]; run_monad;
      [apply command_frame_refl|].
    destruct (get_stmt (conn w) (ld_stmt_id p)) as [e|st]; run_monad;
      [apply command_frame_refl|].
    by apply command_frame_alter.
  - (* COM_STMT_EXECUTE *)
    unfold handle_stmt_execute, parse_com_stmt_execute. run_monad.
    destruct (parse_com_stmt_execute_stmt_id E rest) as [e|id]; run_monad;
      [apply command_frame_refl|].
    destruct (get_stmt (conn w) id) as [e|st]; run_monad;
      [apply command_frame_refl|].
    destruct (parse_com_stmt_execute_body E _ _ rest st) as [e|body];
      run_monad; [apply command_frame_refl|].
    eapply command_frame_trans;
      [apply (command_frame_alter (prepared_stmt_seq (conn w))
                (set_param_buffers None) id); done|].
    match goal with
    | |- context [query E ?s ?a ?w0] =>
        pose proof (query_command_frame s a w0) as Hq;
        destruct (query E s a w0) as [[rs|e] wq]
    end; simpl in Hq; [|done].
    eapply command_frame_trans; [exact Hq|].
    destruct (result_set_bool E rs); cbn [negb]; run_monad;
      [|apply command_frame_refl].
    rewrite write_all_out. run_monad.
    destruct (cx_use_cursor body); run_monad.
    + by apply command_frame_alter.
    + destruct (deprecate_eof (conn wq)); run_monad; rewrite write_all_out;
        run_monad; apply command_frame_refl.
  - (* COM_STMT_FETCH *)
    unfold handle_stmt_fetch. run_monad.
    destruct (parse_handle_stmt_fetch E rest) as [e|p]; run_monad;
      [apply command_frame_refl|].
    destruct (get_stmt (conn w) (cf_stmt_id p)) as [e|st]; run_monad;
      [apply command_frame_refl|].
    destruct (cursor st); run_monad; [|apply command_frame_refl].
    rewrite write_all_out. run_monad. by apply command_frame_alter.
  - (* COM_STMT_RESET *)
    unfold handle_stmt_reset. run_monad.
    destruct (parse_com_stmt_reset E rest) as [e|id]; run_monad;
      [apply command_frame_refl|].
    destruct (get_stmt (conn w) id) as [e|st]; run_monad;
      [apply command_frame_refl|].
    by apply command_frame_alter.
  - (* COM_STMT_CLOSE *)
    unfold handle_stmt_close. run_monad.
    destruct (parse_com_stmt_close E rest) as [e|id]; run_monad;
      [apply command_frame_refl|].
    apply command_frame_delete.
  - (* COM_CHANGE_USER *)
    unfold handle_change_user. run_monad.
    destruct (parse_com_change_user E _ _ rest) as [e|cu]; run_monad;
      [apply command_frame_refl|].
    eapply command_frame_trans; [apply (command_frame_change_user cu)|].
    match goal with
    | |- context [authenticate E ?u ?r ?p ?a ?s ?sp ?w0] =>
        pose proof (authenticate_frame u r p a s sp w0) as Ha;
        destruct (authenticate E u r p a s sp w0) as [[[]|e] wa]
    end; simpl in Ha; [|done].
    pose proof (session_init_conn wa) as Hs.
    destruct (session_init_self E wa) as [[[]|e] ws]; simpl in Hs; simpl;
      by rewrite ?Hs.
Qed.

Lemma command_iteration_frame w :
  command_frame (conn w) (conn (snd (command_iteration E w))).
Proof.
  unfold command_iteration, stream_read.
  destruct (inp w) as [|data more]; simpl; [apply command_frame_refl|].
  unfold try_finally, try_except, stream_reset_seq. simpl.
  match goal with
  | |- context [dispatch E data ?w0] =>
      pose proof (dispatch_frame data w0) as Hd;
      destruct (dispatch E data w0) as [[b|e] wd]
  end; simpl in Hd; simpl; [done|].
  unfold on_command_error. run_monad.
  destruct e; run_monad; done.
Qed.

Lemma command_phase_frame turns : forall w r w',
  command_phase E turns w = Some (r, w') -> command_frame (conn w) (conn w').
Proof.
  induction turns as [|turns IH]; intros w r w'; simpl; [done|].
  pose proof (command_iteration_frame w) as Hi.
  destruct (command_iteration E w) as [[[|]|e] w1]; simpl in Hi.
  - intros H. eapply command_frame_trans; [exact Hi|]. by eapply IH.
  - by intros [= _ <-].
  - by intros [= _ <-].
Qed.

(** X14.  Whatever commands a client sends, the command loop comes to an
    end within one turn more than there are packets and leaves what the
    handshake negotiated as it was: the connection id, the identity
    provider, the handshake plugin and its data, the server's and the
    negotiated capabilities, the status flags, the maximal packet size, the
    client's plugin name and the compression level.  COM_CHANGE_USER and
    COM_RESET_CONNECTION are no exceptions. *)
Theorem commands_keep_negotiation turns w :
  (length (inp w) < turns)%nat ->
  exists r w',
    command_phase E turns w = Some (r, w')
    /\ same_negotiation (conn w) (conn w').
Proof.
  intros Hlen.
  destruct (command_phase_returns turns w Hlen) as [[r w'] H].
  exists r, w'. split; [done|]. by apply command_phase_frame in H as [? _].
Qed.

(** X15.  The registry stays keyed by statement id: if every registered
    statement sits under its own id before the command loop, then so it
    does when the loop is over, and [get_stmt] hands out, for an id, a
    statement that carries this id. *)
Theorem registry_keyed_by_id turns w :
  keyed_by_id (conn w) ->
  (length (inp w) < turns)%nat ->
  exists r w',
    command_phase E turns w = Some (r, w')
    /\ keyed_by_id (conn w')
    /\ forall id st, get_stmt (conn w') id = inr st -> stmt_id st = id.
Proof.
  intros Hk Hlen.
  destruct (command_phase_returns turns w Hlen) as [[r w'] H].
  exists r, w'. split; [done|].
  apply command_phase_frame in H as [_ Hk'].
  specialize (Hk' Hk). split; [done|]. intros id st. unfold get_stmt.
  destruct (prepared_stmts (conn w') !! id) as [s|] eqn:Hl; [|done].
  intros [= <-]. by apply Hk'.
Qed.

(** ** A change of user that succeeds *)

Lemma auth_rounds_success pending evs a st ai :
  auth_rounds pending evs (Success a) st ai
  = (Ok (VSuccess a, ai), pending, evs).
Proof. by destruct pending. Qed.

(** X16.  A [COM_CHANGE_USER] whose plugin accepts the client's plugin
    name and says [Success] at once reads no further packet, answers with
    one OK packet and then calls [session.init] on the connection that
    carries the authenticated name and the database of the command. *)
Theorem change_user_success w data cu user hp a st :
  parse_com_change_user E (capabilities (conn w))
    (client_charset (vars (conn w))) data = inr cu ->
  let c1 := change_user_assign cu (conn w) in
  get_user (identity_provider (conn w)) (cu_username cu) = Some user ->
  handshake_auth_plugin (conn w) = Some hp ->
  plugin_accepts (user_plugin_of c1 user) (cu_client_plugin cu) = true ->
  AuthPlugin_start (user_plugin_of c1 user)
    (Some (change_user_auth_info cu c1 user hp))
  = inr (Success a, st) ->
  let c2 := set_vars_admin (vars c1) (set_username (Some a) (admin c1)) c1 in
  let w' := snd (handle_change_user E data w) in
  conn w' = c2
  /\ inp w' = inp w
  /\ out w' = out w ++ [EvWrite (ok c2 no_kwargs);
                        EvSessionInit (Some a) (cu_database cu)].
Proof.
  intros Hp c1 Huser Hhs Hacc Hstart c2 w'.
  pose proof (change_user_assign_spec cu (conn w)) as Hspec.
  fold c1 in Hspec.
  destruct Hspec as (Hdb & Hext & Hcs & Hattrs & Husr & Hip & Hhp & Hhd).
  assert (Hrun : handle_change_user E data w
          = session_init_self E
              {| conn := c2; session := session w; inp := inp w;
                 out := out w ++ [EvWrite (ok c2 no_kwargs)] |}).
  { unfold handle_change_user. unfold bind at 1, get_conn.
    cbn [fst snd]. rewrite Hp. unfold bind at 1, lift, ret. cbn [fst snd].
    unfold bind at 1, put_conn. fold c1. unfold bind at 1.
    unfold authenticate. unfold bind at 1, get_conn. cbn [fst snd conn].
    rewrite Hip, Huser, Hhp, Hhs.
    unfold auth_begin, optimistic_match. rewrite Hacc.
    unfold change_user_auth_info in Hstart.
    unfold bind at 1. unfold bind at 1. rewrite Hstart. run_monad.
    unfold auth_loop. rewrite auth_rounds_success. simpl. by run_monad. }
  subst w'. rewrite Hrun, session_init_conn, session_init_trace.
  cbn [conn out]. split; [done|]. split.
  - unfold session_init_self. run_monad. unfold with_session. simpl.
    by destruct (session_init E _ _) as [[e|] s].
  - rewrite <- app_assoc. simpl. subst c2. simpl. by rewrite Hdb.
Qed.

(** ** Commands and their answers *)

Lemma grows_emits {A} P (m : M E A) : emits P m -> grows m.
Proof.
  intros H w. destruct (H w) as (evs & Ho & _). unfold writes.
  rewrite Ho, count_app. lia.
Qed.

Lemma answers_grows {A} (m : M E A) : answers m -> grows m.
Proof. intros H w. specialize (H w). destruct (fst (m w)); lia. Qed.

Lemma answers_bind_l {A B} (m : M E A) (k : A -> M E B) :
  answers m -> (forall a, grows (k a)) -> answers (bind E m k).
Proof.
  intros Hm Hk w. unfold bind. specialize (Hm w).
  destruct (m w) as [[a|e] w1]; simpl in *; [|done].
  specialize (Hk a w1). destruct (fst (k a w1)); lia.
Qed.

Lemma answers_bind_r {A B} (m : M E A) (k : A -> M E B) :
  grows m -> (forall a, answers (k a)) -> answers (bind E m k).
Proof.
  intros Hm Hk w. unfold bind. specialize (Hm w).
  destruct (m w) as [[a|e] w1]; simpl in *; [|done].
  specialize (Hk a w1). destruct (fst (k a w1)); lia.
Qed.

Lemma answers_write p : answers (stream_write E p).
Proof.
  intros w. unfold stream_write, emit, writes. simpl. rewrite count_app.
  unfold count. simpl. lia.
Qed.

Lemma answers_raise {A} e : answers (raise E (A:=A) e).
Proof. intros w. simpl. lia. Qed.

Lemma answers_write_all p ps : answers (write_all E (p :: ps)).
Proof.
  simpl. apply answers_bind_l; [apply answers_write|]. intros _.
  apply (grows_emits (fun _ => True)). by apply emits_write_all.
Qed.

Ltac grows_auto :=
  apply (grows_emits handler_event);
  unfold parse_com_stmt_execute; emits_auto.

Ltac answers_step :=
  lazymatch goal with
  | |- answers (stream_write _ _) => apply answers_write
  | |- answers (raise _ _) => apply answers_raise
  | |- answers (write_all _ (_ :: _)) => apply answers_write_all
  | |- answers (bind _ _ _) =>
      apply answers_bind_r; [by grows_auto|intros ?]
  | |- answers (match ?x with _ => _ end) => destruct x
  end.

Lemma answers_authenticate u r cpn attrs st sp :
  answers (authenticate E u r cpn attrs st sp).
Proof.
  unfold authenticate.
  apply answers_bind_r; [by grows_auto|]. intros c.
  destruct (get_user _ _) as [user|]; [|by apply answers_write].
  destruct (handshake_auth_plugin c); [|apply answers_raise].
  apply answers_bind_r;
    [apply (grows_emits handler_event), emits_auth_begin|].
  intros [[d s0] i].
  apply answers_bind_r; [by grows_auto|]. intros [v i'].
  unfold auth_finish. destruct v; repeat answers_step.
Qed.

Lemma answers_dispatch data :
  has_no_response data = false -> answers (dispatch E data).
Proof.
  unfold has_no_response, dispatch.
  destruct data as [|command rest]; [intros _; apply answers_raise|].
  simpl. intros Hsilent.
  repeat match goal with
         | |- context [if Byte.eqb command ?k then _ else _] =>
             destruct (Byte.eqb command k) eqn:?
         end;
    try discriminate Hsilent; try apply answers_raise;
    (apply answers_bind_l;
     [|intros ?; apply (grows_emits handler_event), emits_ret]).
  - unfold handle_query. repeat answers_step.
    unfold text_resultset. apply answers_write_all.
  - unfold handle_stmt_prepare. repeat answers_step.
    unfold com_stmt_prepare_response. apply answers_write_all.
  - unfold handle_stmt_execute. repeat answers_step.
  - unfold handle_stmt_fetch. repeat answers_step.
  - unfold handle_stmt_reset. repeat answers_step.
  - unfold handle_ping. repeat answers_step.
  - unfold handle_change_user. do 3 answers_step.
    apply answers_bind_l; [apply answers_authenticate|].
    intros _. apply (grows_emits handler_event), emits_session_init.
  - unfold handle_reset_connection. repeat answers_step.
  - unfold handle_debug. repeat answers_step.
Qed.

(** X18.  Every command but [COM_STMT_SEND_LONG_DATA], [COM_STMT_CLOSE]
    and [COM_QUIT] is answered: when the turn of the command loop that
    read it is over, at least one packet has been written, whether the
    command succeeded or failed.  This includes the empty packet and the
    commands the loop does not know. *)
Theorem every_command_is_answered w data more :
  inp w = data :: more ->
  has_no_response data = false ->
  (writes w < writes (snd (command_iteration E w)))%nat.
Proof.
  intros Hinp Hdata. unfold command_iteration, stream_read. rewrite Hinp.
  unfold try_finally, try_except, stream_reset_seq.
  match goal with
  | |- context [dispatch E data ?w0] =>
      pose proof (answers_dispatch data Hdata w0) as Hd;
      assert (Hw0 : writes w0 = writes w)
        by (unfold writes; cbn [out]; rewrite count_app; done);
      destruct (dispatch E data w0) as [[b|e] wd]
  end; simpl in Hd.
  - run_monad. unfold writes in *. simpl. rewrite count_app.
    change (count is_write [EvResetSeq]) with 0%nat. lia.
  - assert (Hans : answers (on_command_error E e)).
    { unfold on_command_error. apply answers_bind_r; [by grows_auto|].
      intros c. destruct e;
        (apply answers_bind_l;
         [apply answers_write
         |intros ?; apply (grows_emits handler_event), emits_ret]). }
    specialize (Hans wd).
    pose proof (on_command_error_returns e wd) as Hr.
    destruct (on_command_error E e wd) as [[b|e'] we]; simpl in *.
    + unfold writes in *. simpl. rewrite count_app.
      change (count is_write [EvResetSeq]) with 0%nat. lia.
    + by destruct Hr as [? [=]].
Qed.

(** ** Preparing and closing *)

(** X19.  Closing a statement right after preparing it undoes the
    registration and nothing else: the registry is what it was before the
    prepare (less the statement that sat under the same id, if there was
    one), the close writes nothing, and the id is not given back to the
    sequence. *)
Theorem prepare_then_close w dp dc s :
  charset_decode E (client_charset (vars (conn w))) dp = inr s ->
  parse_com_stmt_close E dc = inr (next_stmt_id (conn w)) ->
  exists w1 w2,
    handle_stmt_prepare E dp w = (Ok tt, w1)
    /\ handle_stmt_close E dc w1 = (Ok tt, w2)
    /\ prepared_stmts (conn w2)
       = delete (next_stmt_id (conn w)) (prepared_stmts (conn w))
    /\ (prepared_stmts (conn w) !! next_stmt_id (conn w) = None ->
        prepared_stmts (conn w2) = prepared_stmts (conn w))
    /\ prepared_stmt_seq (conn w2)
       = snd (utils.next (prepared_stmt_seq (conn w)))
    /\ out w2 = out w1
    /\ inp w2 = inp w.
Proof.
  intros Hd Hc. unfold handle_stmt_prepare. run_monad. rewrite Hd. run_monad.
  unfold utils.next. run_monad. rewrite write_all_out. run_monad.
  eexists _, _. split; [reflexivity|].
  unfold handle_stmt_close. run_monad. rewrite Hc. run_monad.
  split; [reflexivity|]. cbn [conn out inp prepared_stmts set_stmts
                               prepared_stmt_seq].
  unfold next_stmt_id, utils.next. cbn [fst snd].
  rewrite delete_insert_eq. split; [done|]. split; [|done].
  intros Hfree. by apply delete_id.
Qed.

(** ** What the handshake records *)

(** X20.  Once the handshake response of the client has been parsed, the
    connection carries what the response said - capabilities, maximal
    packet size, plugin name, connect attributes, compression level,
    database, user and charset - beside the data and the name of the
    default plugin, and it still does when the connection phase is over,
    whether authentication succeeded, failed or raised.  The connection
    id, the server's capabilities and the statement registry are as
    before; the user name of the session is the old one or the one a
    plugin authenticated. *)
Theorem handshake_records_response w data more auth_data st response :
  inp w = data :: more ->
  AuthPlugin_start (get_default_plugin (identity_provider (conn w))) None
  = inr (DBytes auth_data, st) ->
  parse_handshake_response_41 E (server_capabilities (conn w)) data
  = inr response ->
  let c' := conn (snd (connection_phase E w)) in
  (capabilities c' = hr_capabilities response
   /\ max_packet_size c' = hr_max_packet_size response
   /\ client_plugin_name c' = hr_client_plugin response
   /\ client_connect_attrs c' = hr_connect_attrs response
   /\ zstd_compression_level c' = hr_zstd_compression_level response
   /\ database (admin c') = hr_database response
   /\ external_user (vars c') = Some (hr_username response)
   /\ client_charset (vars c') = hr_client_charset response)
  /\ (handshake_auth_data c' = Some auth_data
      /\ handshake_auth_plugin c'
         = Some (plugin_name
                   (get_default_plugin (identity_provider (conn w)))))
  /\ (connection_id c' = connection_id (conn w)
      /\ server_capabilities c' = server_capabilities (conn w)
      /\ prepared_stmts c' = prepared_stmts (conn w))
  /\ (username (admin c') = username (admin (conn w))
      \/ exists a, username (admin c') = Some a).
Proof.
  intros Hinp Hstart Hparse c'. subst c'.
  unfold connection_phase. run_monad. rewrite Hstart. run_monad.
  unfold stream_read. cbn [inp]. rewrite Hinp.
  cbn [server_capabilities set_handshake]. rewrite Hparse. run_monad.
  match goal with
  | |- context [authenticate E ?u ?r ?p ?a ?s ?sp ?w0] =>
      destruct (authenticate E u r p a s sp w0) as [res wa] eqn:Ha
  end.
  apply authenticate_conn in Ha. cbn [conn] in Ha.
  destruct res as [[]|e]; simpl; destruct Ha as [->|[a ->]]; simpl; eauto 20.
Qed.
End Properties.

(** ** The accept path *)

(** C1.  [_client_connected_cb] never gets to [connection.start()]: once a
    connection id has been allocated, the call of [Connection] raises
    [TypeError], because it passes [auth_plugins], which
    [Connection.__init__] does not declare (it declares
    [identity_provider]); no connection is constructed or started. *)
Theorem accept_raises_type_error (E : Externals) (caps : Z)
    (v : SystemVariables) (a : Admin) (srv : server.MysqlServer)
    (client : list bytes) (sess : SessionState E) :
  server._client_connected_cb E caps v a srv client sess
  = match server._get_connection_id srv with
    | None => None
    | Some (Raise e, srv') => Some (Raise e, srv', [])
    | Some (Ok _, srv') =>
        Some (Raise (server.unexpected_keyword "auth_plugins"), srv', [])
    end.
Proof.
  unfold server._client_connected_cb.
  by destruct (server._get_connection_id srv) as [[[id|e] srv']|].
Qed.

(** While no connection is registered the id search stops at once, and
    nothing ever gets registered. *)
Lemma get_connection_id_idle (srv : server.MysqlServer) :
  server._connections srv = ∅ ->
  server._get_connection_id srv
  = Some (Ok (Z.shiftl (server.server_id srv mod server._MAX_SERVER_ID)
                server._CONNECTION_ID_BITS
              + utils.value (server._connection_seq srv)),
          server.set_seq (snd (utils.next (server._connection_seq srv))) srv).
Proof.
  intros Hidle. unfold server._get_connection_id. rewrite Hidle.
  rewrite map_size_empty. cbn [Z.of_nat Z.geb Z.compare].
  unfold utils.next.
  destruct (Z.to_nat server._MAX_CONNECTION_SEQ);
    cbn [server.skip_live]; by rewrite lookup_empty.
Qed.

Lemma accept_on_idle_server (E : Externals) (caps : Z) (v : SystemVariables)
    (a : Admin) (srv : server.MysqlServer) (client : list bytes)
    (sess : SessionState E) :
  server._connections srv = ∅ ->
  exists srv',
    server._client_connected_cb E caps v a srv client sess
    = Some (Raise (server.unexpected_keyword "auth_plugins"), srv', [])
    /\ server._connections srv' = ∅.
Proof.
  intros Hidle. unfold server._client_connected_cb.
  rewrite (get_connection_id_idle srv Hidle).
  eexists. split; [reflexivity|]. exact Hidle.
Qed.

Import example.

Example first_accept_raises :
  option_map (fun r => (fst (fst r), snd r))
    (server._client_connected_cb E0 0 vars0 admin0 server0
       [handshake_response "levon_helm" EmptyString; ping] tt)
  = Some (Raise (server.unexpected_keyword "auth_plugins"), []).
Proof. vm_compute. reflexivity. Qed.

(** ** Failed handshakes *)

(** C3.  A handshake that fails in [authenticate] does not end the
    connection.  For a user the identity provider does not know, and for a
    user whose plugin says [Forbidden], the ERR packet is written,
    [authenticate] returns, and [start] goes on: it calls [session.init]
    and enters the command phase, where the [COM_PING] that follows is
    answered with OK. *)
Theorem failed_handshake_enters_command_phase :
  outcome (start E0 (world0 (conn0 [GullibleAuthPlugin])
                       [handshake_response "unknown" EmptyString; ping]))
  = Some (Ok tt,
          [EvWrite (make_handshake_v10 0 45 "8.0.29" 1 [] 0 "mysql_no_login");
           EvRead (handshake_response "unknown" EmptyString);
           EvWrite (make_error 0 45 (MsgStr "User unknown does not exist")
                      (Some USER_DOES_NOT_EXIST));
           EvResetSeq;
           EvSessionInit None None;
           EvRead ping;
           EvWrite (make_ok 0 0 no_kwargs);
           EvResetSeq;
           EvSessionClose])
  /\ outcome (start E0 (world0 (conn0 [TestPlugin])
                          [handshake_response "garth_hudson" EmptyString;
                           bytes_of_string "wrong"; ping]))
     = Some (Ok tt,
             [EvWrite (make_handshake_v10 0 45 "8.0.29" 1 [] 0 "test_plugin");
              EvRead (handshake_response "garth_hudson" EmptyString);
              EvWrite (make_auth_switch_request 45 "mysql_clear_password" []);
              EvRead (bytes_of_string "wrong");
              EvWrite (make_error 0 45
                         (MsgStr "Access denied for user garth_hudson")
                         (Some ACCESS_DENIED_ERROR));
              EvResetSeq;
              EvSessionInit None None;
              EvRead ping;
              EvWrite (make_ok 0 0 no_kwargs);
              EvResetSeq;
              EvSessionClose]).
Proof. split; vm_compute; reflexivity. Qed.

(** ** The statements above at concrete inputs *)

Lemma prepare_response_ends_in_eof_witness :
  deprecate_eof deprecating = true
  /\ num_params select_param <> 0%nat
  /\ com_stmt_prepare_response deprecating select_param
     = [make_com_stmt_prepare_ok 0 "SELECT ?" 1;
        make_column_definition_41 45 "?" None None;
        make_eof CLIENT_DEPRECATE_EOF 0 no_kwargs].
Proof.
  split; [reflexivity|]. split; [discriminate|].
  apply (prepare_response_ends_in_eof deprecating select_param);
    [reflexivity|discriminate].
Defined.

Lemma unknown_statement_id_witness :
  inp (world0 (conn0 [GullibleAuthPlugin]) [fetch x07 x01])
  = fetch x07 x01 :: []
  /\ referenced_stmt_id E0 COM_STMT_FETCH (uint32 x07 ++ uint32 x01) = Some 7
  /\ prepared_stmts (conn0 [GullibleAuthPlugin]) !! 7 = None
  /\ command_iteration E0 (world0 (conn0 [GullibleAuthPlugin]) [fetch x07 x01])
     = (Ok true,
        advance (world0 (conn0 [GullibleAuthPlugin]) [fetch x07 x01]) []
          [EvRead (fetch x07 x01);
           EvWrite (make_error 0 45 (MsgStr "Unknown statement: 7")
                      (Some UNKNOWN_PROCEDURE));
           EvResetSeq]).
Proof.
  split; [reflexivity|]. split; [reflexivity|]. split; [reflexivity|].
  apply (unknown_statement_id E0
           (world0 (conn0 [GullibleAuthPlugin]) [fetch x07 x01])
           COM_STMT_FETCH (uint32 x07 ++ uint32 x01) [] 7); reflexivity.
Defined.

(** C6, as stated, fails for [COM_STMT_CLOSE]: closing statement 7 on a
    connection without statements succeeds and writes nothing. *)
Lemma close_unknown_statement_is_silent :
  referenced_stmt_id E0 COM_STMT_CLOSE (uint32 x07) = Some 7
  /\ prepared_stmts (conn0 [GullibleAuthPlugin]) !! 7 = None
  /\ fst (command_iteration E0
            (world0 (conn0 [GullibleAuthPlugin]) [close x07])) = Ok true
  /\ out (snd (command_iteration E0
                 (world0 (conn0 [GullibleAuthPlugin]) [close x07])))
     = [EvRead (close x07); EvResetSeq].
Proof. repeat split; vm_compute; reflexivity. Qed.

Lemma cursor_fetch_witness :
  parse_com_stmt_execute_stmt_id E0 (uint32 x00 ++ [x01]) = inr 0
  /\ prepared_stmts (conn prepared) !! 0 = Some select_param
  /\ parse_com_stmt_execute_body E0 (capabilities (conn prepared))
       (client_charset (vars (conn prepared))) (uint32 x00 ++ [x01])
       select_param
     = inr {| cx_sql := "SELECT ?"; cx_query_attrs := [];
              cx_use_cursor := true |}
  /\ result_set_bool E0 two_rows = true
  /\ parse_handle_stmt_fetch E0 (uint32 x00 ++ uint32 x01)
     = inr {| cf_stmt_id := 0; cf_num_rows := 1 |}
  /\ exists w1 w2,
       handle_stmt_execute E0 (uint32 x00 ++ [x01]) prepared = (Ok tt, w1)
       /\ handle_stmt_fetch E0 (uint32 x00 ++ uint32 x01) w1 = (Ok tt, w2)
       /\ out w2
          = out w1
            ++ [EvWrite (row 1);
                EvWrite (ok_or_eof (conn w1) 0 0 0
                           SERVER_STATUS_CURSOR_EXISTS)].
Proof.
  do 5 (split; [reflexivity|]).
  destruct (cursor_fetch E0 prepared (uint32 x00 ++ [x01])
              (uint32 x00 ++ uint32 x01) 0 select_param
              {| cx_sql := "SELECT ?"; cx_query_attrs := [];
                 cx_use_cursor := true |}
              two_rows
              (snd (query E0 "SELECT ?" []
                      (snd (update_stmt E0 0 (set_param_buffers None)
                              prepared))))
              1)
    as (w1 & w2 & Hx & Hf & Ho & _); try reflexivity.
  exists w1, w2. split; [exact Hx|]. split; [exact Hf|]. exact Ho.
Defined.

(** C4, as stated, fails when the result set has exactly as many rows as
    are fetched: after an execute with cursor over two rows, a fetch of two
    rows exhausts the cursor but reports [CURSOR_EXISTS], not
    [LAST_ROW_SENT]. *)
Lemma fetch_of_all_rows_reports_cursor_exists :
  outcome (command_phase E0 4
             (world0 (conn0 [GullibleAuthPlugin])
                [prepare "SELECT ?"; execute_with_cursor x00;
                 fetch x00 x02]))
  = Some (Ok tt,
          [EvRead (prepare "SELECT ?");
           EvWrite (make_com_stmt_prepare_ok 0 "SELECT ?" 1);
           EvWrite (make_column_definition_41 45 "?" None None);
           EvWrite (make_eof 0 0 no_kwargs);
           EvResetSeq;
           EvRead (execute_with_cursor x00);
           EvSessionQuery "SELECT ?";
           EvWrite (uint_len 1);
           EvWrite (make_column_definition_41 45 "a" (Some 8) (Some 63));
           EvWrite (make_eof 0 0
                      {| kw_eof := None; kw_affected_rows := None;
                         kw_last_insert_id := None; kw_warnings := Some 0;
                         kw_flags := Some SERVER_STATUS_CURSOR_EXISTS |});
           EvResetSeq;
           EvRead (fetch x00 x02);
           EvWrite (row 1);
           EvWrite (row 2);
           EvWrite (make_eof 0 0
                      {| kw_eof := None; kw_affected_rows := None;
                         kw_last_insert_id := None; kw_warnings := Some 0;
                         kw_flags := Some SERVER_STATUS_CURSOR_EXISTS |});
           EvResetSeq])
  /\ flag_in SERVER_STATUS_LAST_ROW_SENT SERVER_STATUS_CURSOR_EXISTS = false.
Proof. split; vm_compute; reflexivity. Qed.






Lemma change_user_not_atomic_witness :
  parse_com_change_user E0 (capabilities (conn fresh))
    (client_charset (vars (conn fresh))) (handshake_response "unknown" EmptyString)
  = inr {| cu_database := Some "db"; cu_username := "unknown";
           cu_client_charset := None; cu_connect_attrs := [];
           cu_auth_response := []; cu_client_plugin := None |}
  /\ out (snd (handle_change_user E0 (handshake_response "unknown" EmptyString) fresh))
     = [EvWrite (make_error 0 45 (MsgStr "User unknown does not exist")
                   (Some USER_DOES_NOT_EXIST));
        EvSessionInit None (Some "db")]
  /\ database (admin (conn (snd (handle_change_user E0
                                   (handshake_response "unknown" EmptyString) fresh))))
     = Some "db".
Proof.
  split; [reflexivity|].
  destruct (change_user_not_atomic E0 fresh (handshake_response "unknown" EmptyString)
              {| cu_database := Some "db"; cu_username := "unknown";
                 cu_client_charset := None; cu_connect_attrs := [];
                 cu_auth_response := []; cu_client_plugin := None |}
              eq_refl)
    as ((Hdb & _) & (_ & Hkeep & _) & _ & Hunknown & _).
  split.
  - exact (Hunknown eq_refl).
  - rewrite Hkeep. exact Hdb.
Defined.

(** * Connection ids of the server *)

Lemma max_connection_seq : server._MAX_CONNECTION_SEQ = 65536.
Proof. reflexivity. Qed.

Lemma next_in_range (s : utils.seq) :
  utils.size s = 65536 ->
  utils.size (snd (utils.next s)) = 65536
  /\ 0 <= utils.value (snd (utils.next s)) < 65536.
Proof.
  intros Hs. unfold utils.next. simpl. rewrite Hs. split; [done|].
  by apply Z.mod_pos_bound.
Qed.

(** The loop comes out with an id that is not live, built from the prefix
    and a value of the sequence. *)
Lemma skip_live_sound (live : gmap Z Connection) prefix turns :
  forall cid s id s',
    utils.size s = 65536 ->
    0 <= utils.value s < 65536 ->
    (exists v, 0 <= v < 65536 /\ cid = prefix + v) ->
    server.skip_live turns prefix cid s live = Some (id, s') ->
    live !! id = None
    /\ (exists v, 0 <= v < 65536 /\ id = prefix + v)
    /\ utils.size s' = 65536
    /\ 0 <= utils.value s' < 65536.
Proof.
  induction turns as [|turns IH]; intros cid s id s' Hs Hv Hcid; simpl.
  - destruct (live !! cid) eqn:Hl; [done|]. by intros [= <- <-].
  - destruct (live !! cid) eqn:Hl; [|by intros [= <- <-]].
    destruct (next_in_range s Hs) as [Hs' Hv'].
    unfold utils.next in *. simpl in Hs', Hv'.
    apply IH; [done..|]. by exists (utils.value s).
Qed.

(** When the loop gives up, every id it tried is live. *)
Lemma skip_live_none (live : gmap Z Connection) prefix turns :
  forall cid s,
    utils.size s = 65536 ->
    0 <= utils.value s < 65536 ->
    server.skip_live turns prefix cid s live = None ->
    forall i, 0 <= i < Z.of_nat turns ->
      is_Some (live !! (prefix + (utils.value s + i) mod 65536)).
Proof.
  induction turns as [|turns IH]; intros cid s Hs Hv; simpl.
  - intros _ i Hi. lia.
  - destruct (live !! cid) eqn:Hl; [|done].
    destruct (next_in_range s Hs) as [Hs' Hv'].
    unfold utils.next in *. simpl in *. rewrite Hs in *.
    intros Hnone i Hi.
    destruct (decide (i = 0)) as [->|Hne].
    + destruct turns as [|turns']; simpl in Hnone.
      * rewrite Z.add_0_r, Z.mod_small by lia.
        by destruct (live !! (prefix + utils.value s)).
      * rewrite Z.add_0_r, Z.mod_small by lia.
        by destruct (live !! (prefix + utils.value s)).
    + specialize (IH _ {| utils.size := 65536;
                          utils.value := (utils.value s + 1) mod 65536 |}
                    eq_refl Hv' Hnone (i - 1)).
      simpl in IH. rewrite Zplus_mod_idemp_l in IH.
      replace (utils.value s + 1 + (i - 1)) with (utils.value s + i) in IH
        by lia.
      apply IH. lia.
Qed.

(** Sixty-five thousand five hundred and thirty-six ids in a row cannot
    all be live when fewer connections are. *)
Lemma live_block_size (live : gmap Z Connection) prefix :
  (forall k, 0 <= k < 65536 -> is_Some (live !! (prefix + k))) ->
  65536 <= Z.of_nat (size live).
Proof.
  intros Hall.
  assert (Hsub : list_to_set (C := gset Z) (seqZ prefix 65536) ⊆ dom live).
  { intros x Hx. apply elem_of_list_to_set, elem_of_seqZ in Hx.
    apply elem_of_dom. replace x with (prefix + (x - prefix)) by lia.
    apply Hall. lia. }
  apply subseteq_size in Hsub.
  rewrite size_list_to_set in Hsub by apply NoDup_seqZ.
  rewrite length_seqZ, size_dom in Hsub. lia.
Qed.

(** What holds of an id that comes back. *)
Lemma get_connection_id_sound (srv srv' : server.MysqlServer) (id : Z) :
  connection_seq_ok srv ->
  server._get_connection_id srv = Some (Ok id, srv') ->
  server._connections srv !! id = None
  /\ id / 2 ^ 16 = server.server_id srv mod 2 ^ 16
  /\ 0 <= id < 2 ^ 32
  /\ server._connections srv' = server._connections srv
  /\ server.server_id srv' = server.server_id srv
  /\ connection_seq_ok srv'.
Proof.
  intros [Hs Hv]. rewrite max_connection_seq in Hs, Hv.
  unfold server._get_connection_id.
  destruct (_ >=? _); [done|].
  remember (Z.to_nat server._MAX_CONNECTION_SEQ) as turns.
  unfold utils.next.
  remember (Z.shiftl (server.server_id srv mod server._MAX_SERVER_ID)
              server._CONNECTION_ID_BITS) as prefix eqn:Hprefix.
  destruct (next_in_range _ Hs) as [Hs' Hv'].
  unfold utils.next in Hs', Hv'. simpl in Hs', Hv'.
  destruct (server.skip_live _ _ _ _ _) as [[id' s']|] eqn:Hskip; [|done].
  intros [= -> <-].
  eapply skip_live_sound in Hskip as (Hfresh & (v & Hr & ->) & Hs2 & Hv2);
    eauto.
  assert (Hp : prefix = (server.server_id srv mod 65536) * 65536).
  { subst prefix. by rewrite Z.shiftl_mul_pow2. }
  pose proof (Z.mod_pos_bound (server.server_id srv) 65536 eq_refl) as Hm.
  change (2 ^ 16) with 65536. change (2 ^ 32) with 4294967296.
  repeat split; simpl; try done; try lia.
  - rewrite Hp, Z.add_comm, Z.div_add by lia. rewrite Z.div_small; lia.
  - rewrite max_connection_seq. lia.
Qed.

(** The loop over the live ids does not use up its turns. *)
Lemma get_connection_id_total (srv : server.MysqlServer) :
  connection_seq_ok srv ->
  match server._get_connection_id srv with
  | Some (Ok id, _) => Z.of_nat (size (server._connections srv)) < 2 ^ 16
  | Some (Raise e, srv') =>
      e = MaxConnectionsExceeded /\ srv' = srv
      /\ 2 ^ 16 <= Z.of_nat (size (server._connections srv))
  | None => False
  end.
Proof.
  intros [Hs Hv]. rewrite max_connection_seq in Hs, Hv.
  unfold server._get_connection_id. rewrite max_connection_seq.
  change (2 ^ 16) with 65536.
  destruct (_ >=? _) eqn:Hfull; [repeat split; lia|].
  assert (Hturns : Z.of_nat (Z.to_nat 65536) = 65536) by lia.
  remember (Z.to_nat 65536) as turns eqn:Ht. clear Ht.
  unfold utils.next.
  destruct (server.skip_live _ _ _ _ _) as [[id' s']|] eqn:Hskip; [lia|].
  destruct (next_in_range _ Hs) as [Hs' Hv'].
  unfold utils.next in Hs', Hv'. simpl in Hs', Hv'.
  pose proof (fun H1 H2 => skip_live_none _ _ _ _ _ H1 H2 Hskip) as Hall.
  specialize (Hall Hs' Hv').
  simpl in Hall. rewrite Hs, Hturns in Hall.
  assert (65536 <= Z.of_nat (size (server._connections srv))); [|lia].
  eapply live_block_size. intros k Hk.
  specialize (Hall ((k - (utils.value (server._connection_seq srv) + 1))
                    mod 65536)).
  rewrite Zplus_mod_idemp_l, Zplus_mod_idemp_r in Hall.
  replace (utils.value (server._connection_seq srv) + 1 +
           (k - (utils.value (server._connection_seq srv) + 1)))
    with k in Hall by lia.
  rewrite (Z.mod_small k) in Hall by lia. apply Hall.
  by apply Z.mod_pos_bound.
Qed.

(** X17.  On a server whose connection sequence is as the constructor
    makes it, [_get_connection_id] always comes to an end.  With fewer
    than 2^16 live connections the loop over the live ids finds, within
    2^16 steps, an id that no live connection has; its upper sixteen bits
    are the server id modulo 2^16, it fits in four bytes, and the call
    changes nothing of the server but the sequence, which stays in range.
    With 2^16 or more live connections it raises [MaxConnectionsExceeded]
    and leaves the server, sequence included, as it is. *)
Theorem connection_id_is_fresh (srv : server.MysqlServer) :
  connection_seq_ok srv ->
  (Z.of_nat (size (server._connections srv)) < 2 ^ 16 ->
   exists id srv',
     server._get_connection_id srv = Some (Ok id, srv')
     /\ server._connections srv !! id = None
     /\ id / 2 ^ 16 = server.server_id srv mod 2 ^ 16
     /\ 0 <= id < 2 ^ 32
     /\ server._connections srv' = server._connections srv
     /\ server.server_id srv' = server.server_id srv
     /\ connection_seq_ok srv')
  /\ (2 ^ 16 <= Z.of_nat (size (server._connections srv)) ->
      server._get_connection_id srv = Some (Raise MaxConnectionsExceeded, srv)).
Proof.
  intros Hseq.
  pose proof (get_connection_id_total srv Hseq) as Htotal.
  pose proof (get_connection_id_sound srv) as Hsound.
  destruct (server._get_connection_id srv) as [[[id|e] srv']|]; [| |done].
  - split; [|lia]. intros _. exists id, srv'. split; [done|].
    by apply Hsound.
  - destruct Htotal as (-> & -> & Hfull). split; [lia|done].
Qed.

Lemma connection_id_is_fresh_witness :
  connection_seq_ok busy
  /\ exists id srv',
       server._get_connection_id busy = Some (Ok id, srv')
       /\ server._connections busy !! id = None
       /\ id / 2 ^ 16 = 1.
Proof.
  assert (Hseq : connection_seq_ok busy) by (split; [reflexivity|done]).
  split; [exact Hseq|].
  destruct (connection_id_is_fresh busy Hseq) as [Hfree _].
  destruct Hfree as (id & srv' & Hrun & Hfresh & Hhigh & _);
    [vm_compute; reflexivity|].
  exists id, srv'. split; [exact Hrun|]. split; [exact Hfresh|exact Hhigh].
Defined.

(** * Instances on the stand-in environment *)

Lemma execute_without_cursor_witness :
  parse_com_stmt_execute_stmt_id E0 (uint32 x00 ++ [x00]) = inr 0
  /\ prepared_stmts (conn prepared) !! 0 = Some select_param
  /\ result_set_bool E0 two_rows = true
  /\ exists wq,
       handle_stmt_execute E0 (uint32 x00 ++ [x00]) prepared
       = (Ok tt,
          advance wq [] (map EvWrite (binary_resultset (conn wq) two_rows)))
       /\ out wq = out prepared ++ [EvSessionQuery "SELECT ?"]
       /\ count is_eof (binary_resultset (conn wq) two_rows) = 2%nat.
Proof.
  do 3 (split; [reflexivity|]).
  exists (snd (query E0 "SELECT ?" []
                 (snd (update_stmt E0 0 (set_param_buffers None) prepared)))).
  destruct (execute_without_cursor E0 prepared (uint32 x00 ++ [x00]) 0
              select_param
              {| cx_sql := "SELECT ?"; cx_query_attrs := [];
                 cx_use_cursor := false |}
              two_rows
              (snd (query E0 "SELECT ?" []
                      (snd (update_stmt E0 0 (set_param_buffers None)
                              prepared)))))
    as (Hrun & _ & Heof); try reflexivity.
  split; [exact Hrun|]. split; [reflexivity|exact Heof].
Defined.

Lemma unknown_command_witness :
  known_command x63 = false
  /\ command_iteration E0 (world0 (conn0 [GullibleAuthPlugin]) [[x63]])
     = (Ok true,
        advance (world0 (conn0 [GullibleAuthPlugin]) [[x63]]) []
          [EvRead [x63];
           EvWrite (make_error 0 45 (MsgStr "Unsupported Command: 0x63")
                      (Some UNKNOWN_COM_ERROR));
           EvResetSeq]).
Proof.
  split; [reflexivity|].
  apply (unknown_command E0 (world0 (conn0 [GullibleAuthPlugin]) [[x63]])
           [x63] []); reflexivity.
Defined.

Lemma loop_ends_on_quit_only_witness :
  fst (command_iteration E0 (world0 (conn0 [GullibleAuthPlugin]) [quit; ping]))
  = Ok false
  /\ fst (command_iteration E0 (world0 (conn0 [GullibleAuthPlugin]) [ping]))
     = Ok true.
Proof.
  split.
  - apply (loop_ends_on_quit_only E0
             (world0 (conn0 [GullibleAuthPlugin]) [quit; ping]) quit [ping]).
    reflexivity.
  - apply (loop_ends_on_quit_only E0
             (world0 (conn0 [GullibleAuthPlugin]) [ping]) ping []).
    reflexivity.
Defined.

Lemma auth_switch_on_mismatch_witness :
  get_user (identity_provider (conn greeted)) "garth_hudson"
  = Some garth_hudson
  /\ plugin_accepts (user_plugin_of (conn greeted) garth_hudson) None = false
  /\ exists evs,
       out (snd (authenticate E0 "garth_hudson" [] None [] None
                   (Some GullibleAuthPlugin) greeted))
       = out greeted
         ++ EvWrite (make_auth_switch_request 45 "mysql_clear_password" [])
            :: evs
       /\ Forall not_auth_switch evs.
Proof.
  split; [reflexivity|]. split; [reflexivity|].
  eapply (auth_switch_on_mismatch E0 greeted "garth_hudson" [] None [] None
            (Some GullibleAuthPlugin) garth_hudson "mysql_no_login"
            "mysql_clear_password" []);
    first [reflexivity | discriminate].
Defined.

Lemma no_auth_switch_when_accepted_witness :
  exists evs,
    out (snd (authenticate E0 "levon_helm" [] None [] None None greeted))
    = out greeted ++ evs
    /\ Forall not_auth_switch evs.
Proof.
  apply (no_auth_switch_when_accepted E0 greeted "levon_helm" [] None [] None
           None).
  reflexivity.
Defined.

Lemma long_data_touches_one_buffer_witness :
  prepared_stmts (conn prepared) !! 0 = Some select_param
  /\ exists w1 st1,
       handle_stmt_send_long_data E0 (long_data_payload x00 x00 "abc")
         prepared = (Ok tt, w1)
       /\ out w1 = out prepared
       /\ prepared_stmts (conn w1) !! 0 = Some st1
       /\ long_data st1 0 = Some (bytes_of_string "abc")
       /\ long_data st1 1 = None.
Proof.
  split; [reflexivity|].
  destruct (long_data_touches_one_buffer E0 prepared
              (long_data_payload x00 x00 "abc") 0 0 (bytes_of_string "abc")
              select_param eq_refl eq_refl)
    as (w1 & st1 & Hrun & Hout & Hst & Hdata & Hother & _).
  exists w1, st1. do 4 (split; [assumption|]).
  by rewrite (Hother 1).
Defined.


Lemma reset_closes_cursor_witness :
  prepared_stmts (conn with_cursor) !! 0
  = Some (set_cursor (Some [row 1; row 2]) select_param)
  /\ exists w1,
       handle_stmt_reset E0 (uint32 x00) with_cursor = (Ok tt, w1)
       /\ prepared_stmts (conn w1) !! 0 = Some select_param.
Proof.
  split; [reflexivity|].
  destruct (reset_closes_cursor E0 with_cursor (uint32 x00)
              (uint32 x00 ++ uint32 x01) [] 0 1
              (set_cursor (Some [row 1; row 2]) select_param)
              eq_refl eq_refl eq_refl)
    as (w1 & Hrun & _ & Hst & _).
  exists w1. split; [exact Hrun|exact Hst].
Defined.

Lemma commands_keep_negotiation_witness :
  exists r w',
    command_phase E0 4
      (world0 (conn greeted)
         [change_user "levon_helm" EmptyString; prepare "SELECT ?"; quit])
    = Some (r, w')
    /\ same_negotiation (conn greeted) (conn w').
Proof.
  apply (commands_keep_negotiation E0 4
           (world0 (conn greeted)
              [change_user "levon_helm" EmptyString; prepare "SELECT ?";
               quit])).
  simpl. lia.
Defined.

Lemma registry_keyed_by_id_witness :
  keyed_by_id (conn prepared)
  /\ exists r w',
       command_phase E0 4
         (world0 (conn prepared) [prepare "SELECT 1"; close x00; quit])
       = Some (r, w')
       /\ keyed_by_id (conn w')
       /\ forall id st, get_stmt (conn w') id = inr st -> stmt_id st = id.
Proof.
  assert (Hk : keyed_by_id (conn prepared)).
  { intros k s H.
    change (prepared_stmts (conn prepared))
      with (<[0 := select_param]> (∅ : gmap Z PreparedStatement)) in H.
    apply lookup_insert_Some in H as [[<- <-]|[_ H]]; [reflexivity|].
    by rewrite lookup_empty in H. }
  split; [exact Hk|].
  apply (registry_keyed_by_id E0 4
           (world0 (conn prepared) [prepare "SELECT 1"; close x00; quit]));
    [exact Hk|simpl; lia].
Defined.

Lemma change_user_success_witness :
  parse_com_change_user E0 (capabilities (conn greeted))
    (client_charset (vars (conn greeted)))
    (handshake_response "levon_helm" EmptyString)
  = inr {| cu_database := Some "db"; cu_username := "levon_helm";
           cu_client_charset := None; cu_connect_attrs := [];
           cu_auth_response := []; cu_client_plugin := None |}
  /\ username (admin (conn (snd (handle_change_user E0
                                   (handshake_response "levon_helm"
                                      EmptyString) greeted))))
     = Some "levon_helm"
  /\ out (snd (handle_change_user E0
                 (handshake_response "levon_helm" EmptyString) greeted))
     = [EvWrite (make_ok 0 0 no_kwargs);
        EvSessionInit (Some "levon_helm") (Some "db")].
Proof.
  split; [reflexivity|].
  destruct (change_user_success E0 greeted
              (handshake_response "levon_helm" EmptyString)
              {| cu_database := Some "db"; cu_username := "levon_helm";
                 cu_client_charset := None; cu_connect_attrs := [];
                 cu_auth_response := []; cu_client_plugin := None |}
              levon_helm "mysql_no_login" "levon_helm"
              {| as_plugin := GullibleAuthPlugin;
                 as_info :=
                   Some (change_user_auth_info
                           {| cu_database := Some "db";
                              cu_username := "levon_helm";
                              cu_client_charset := None;
                              cu_connect_attrs := [];
                              cu_auth_response := [];
                              cu_client_plugin := None |}
                           (change_user_assign
                              {| cu_database := Some "db";
                                 cu_username := "levon_helm";
                                 cu_client_charset := None;
                                 cu_connect_attrs := [];
                                 cu_auth_response := [];
                                 cu_client_plugin := None |}
                              (conn greeted))
                           levon_helm "mysql_no_login");
                 as_sent := [] |}
              eq_refl eq_refl eq_refl eq_refl eq_refl)
    as (Hconn & _ & Hout).
  split.
  - rewrite Hconn. reflexivity.
  - rewrite Hout. reflexivity.
Defined.

Lemma every_command_is_answered_witness :
  has_no_response [x63] = false
  /\ (writes (world0 (conn0 [GullibleAuthPlugin]) [[x63]])
      < writes (snd (command_iteration E0
                       (world0 (conn0 [GullibleAuthPlugin]) [[x63]]))))%nat.
Proof.
  split; [reflexivity|].
  apply (every_command_is_answered E0
           (world0 (conn0 [GullibleAuthPlugin]) [[x63]]) [x63] []);
    reflexivity.
Defined.

Lemma prepare_then_close_witness :
  prepared_stmts (conn fresh) !! next_stmt_id (conn fresh) = None
  /\ exists w1 w2,
       handle_stmt_prepare E0 (bytes_of_string "SELECT ?") fresh
       = (Ok tt, w1)
       /\ handle_stmt_close E0 (uint32 x00) w1 = (Ok tt, w2)
       /\ prepared_stmts (conn w2) = prepared_stmts (conn fresh)
       /\ next_stmt_id (conn w2) = 1.
Proof.
  split; [reflexivity|].
  destruct (prepare_then_close E0 fresh (bytes_of_string "SELECT ?")
              (uint32 x00) "SELECT ?" eq_refl eq_refl)
    as (w1 & w2 & H1 & H2 & _ & Hfree & Hseq & _).
  exists w1, w2. split; [exact H1|]. split; [exact H2|].
  split; [exact (Hfree eq_refl)|].
  unfold next_stmt_id. rewrite Hseq. reflexivity.
Defined.

Lemma handshake_records_response_witness :
  AuthPlugin_start
    (get_default_plugin (identity_provider (conn fresh))) None
  = inr (DBytes [], {| as_plugin := GullibleAuthPlugin; as_info := None;
                       as_sent := [] |})
  /\ external_user
       (vars (conn (snd (connection_phase E0
                           (world0 (conn fresh)
                              [handshake_response "levon_helm"
                                 EmptyString])))))
     = Some "levon_helm"
  /\ handshake_auth_plugin
       (conn (snd (connection_phase E0
                     (world0 (conn fresh)
                        [handshake_response "levon_helm" EmptyString]))))
     = Some "mysql_no_login".
Proof.
  split; [reflexivity|].
  destruct (handshake_records_response E0
              (world0 (conn fresh)
                 [handshake_response "levon_helm" EmptyString])
              (handshake_response "levon_helm" EmptyString) [] []
              {| as_plugin := GullibleAuthPlugin; as_info := None;
                 as_sent := [] |}
              {| hr_capabilities := 0; hr_max_packet_size := 16777216;
                 hr_database := None; hr_client_plugin := None;
                 hr_connect_attrs := []; hr_zstd_compression_level := 0;
                 hr_username := "levon_helm"; hr_client_charset := 45;
                 hr_auth_response := [] |}
              eq_refl eq_refl eq_refl)
    as ((_ & _ & _ & _ & _ & _ & Huser & _) & (_ & Hplugin) & _).
  split; [exact Huser|exact Hplugin].
Defined.
